(** * Isaac ROS NvbloxNode benchmark: the launch script as data

    A verification development for [scripts/isaac_ros_nvblox_node.py].
    The script builds six composable-node descriptors, wraps them in one
    container, declares the benchmark configuration and exposes two hooks
    to the test harness.  Everything it calls ([launch_ros],
    [ros2_benchmark]) lives outside the script; those calls show up here as
    events answered by a harness that the development quantifies over. *)

From Stdlib Require Import ZArith PrimFloat DecimalString.
From stdpp Require Import gmap strings list fin_maps.

Set Warnings "-inexact-float".
Set Default Proof Using "Type".

Local Open Scope string_scope.
Local Open Scope list_scope.

(** ** Python values appearing in the tables *)

(** Values of a node parameter dictionary: strings, integers, binary64
    floats, booleans and lists of strings (['data_formats']). *)
Inductive param_value : Type :=
| PStr (s : string)
| PInt (z : Z)
| PFloat (f : float)
| PBool (b : bool)
| PStrList (l : list string).

(** A dict literal with string keys, in insertion order. *)
Definition dict : Type := list (string * param_value).

(** A remapping list: pairs (logical name, physical name). *)
Definition remapping : Type := (string * string)%type.


Definition remap_get (k : string) (r : list remapping) : option string :=
  snd <$> List.find (fun kv => String.eqb (fst kv) k) r.

(** ** Records of [launch_ros] *)

Module ComposableNode.
(** The keyword arguments of [ComposableNode(...)].  [extra_arguments]
    is given for one node only, hence the option. *)
Record t : Type := mk {
  name : string;
  namespace : string;
  package : string;
  plugin : string;
  parameters : list dict;
  remappings : list remapping;
  extra_arguments : option (list dict)
}.
End ComposableNode.

(** Descriptors are Python objects: the container lists references to
    them.  [loc] is the identity of such an object. *)
Definition loc : Type := positive.

Module ComposableNodeContainer.
(** The keyword arguments of [ComposableNodeContainer(...)]; [prefix] and
    [sigterm_timeout] are whatever the caller of [launch_setup] passes. *)
Record t (Prefix Timeout : Type) : Type := mk {
  name : string;
  namespace : string;
  package : string;
  executable : string;
  prefix : Prefix;
  sigterm_timeout : Timeout;
  composable_node_descriptions : list loc;
  output : string
}.
Arguments mk {Prefix Timeout}.
Arguments name {Prefix Timeout}.
Arguments namespace {Prefix Timeout}.
Arguments package {Prefix Timeout}.
Arguments executable {Prefix Timeout}.
Arguments prefix {Prefix Timeout}.
Arguments sigterm_timeout {Prefix Timeout}.
Arguments composable_node_descriptions {Prefix Timeout}.
Arguments output {Prefix Timeout}.
End ComposableNodeContainer.

(** ** Records of [ros2_benchmark] *)

(** [BasicPerformanceCalculator({...})]: one positional dict. *)
Inductive BasicPerformanceCalculator : Type :=
| mkBasicPerformanceCalculator (config : dict).

(** [MonitorPerformanceCalculatorsInfo(trigger, [calculators])]: two
    positional arguments. *)
Inductive MonitorPerformanceCalculatorsInfo : Type :=
| mkMonitorPerformanceCalculatorsInfo
    (trigger : string) (calculators : list BasicPerformanceCalculator).

Definition calculator_config (c : BasicPerformanceCalculator) : dict :=
  match c with mkBasicPerformanceCalculator d => d end.

Definition monitor_trigger (m : MonitorPerformanceCalculatorsInfo) : string :=
  match m with mkMonitorPerformanceCalculatorsInfo s _ => s end.

Definition monitor_calculators (m : MonitorPerformanceCalculatorsInfo)
  : list BasicPerformanceCalculator :=
  match m with mkMonitorPerformanceCalculatorsInfo _ l => l end.

(** Values of the keyword arguments of [ROS2BenchmarkConfig(...)].  An enum
    member such as [BenchmarkMode.TIMELINE] is kept as the reference the
    script writes: enum name and member name. *)
Inductive config_value : Type :=
| CStr (s : string)
| CInt (z : Z)
| CBool (b : bool)
| CEnum (enum member : string)
| CMonitors (l : list MonitorPerformanceCalculatorsInfo).

(** The call [ROS2BenchmarkConfig] with keyword arguments only: the
    arguments in the order the script gives them. *)
Inductive ROS2BenchmarkConfig : Type :=
| mkROS2BenchmarkConfig (kwargs : list (string * config_value)).

Definition config_kwargs (c : ROS2BenchmarkConfig) : list (string * config_value) :=
  match c with mkROS2BenchmarkConfig kw => kw end.

Definition config_get (k : string) (c : ROS2BenchmarkConfig) : option config_value :=
  snd <$> List.find (fun kv => String.eqb (fst kv) k) (config_kwargs c).

(** ** Programs: calls into the harness, exceptions *)

Inductive exception : Type :=
| Exception (msg : string).

Inductive outcome (A : Type) : Type :=
| Returned (a : A)
| Raised (ex : exception).
Arguments Returned {A}.
Arguments Raised {A}.

(** A Python function body without loops: it returns, calls out (event
    [e], answer passed to [k]), raises, or guards a block with
    try/except. *)
Inductive Prog (E : Type -> Type) (R : Type) : Type :=
| Ret (r : R)
| Vis {X : Type} (e : E X) (k : X -> Prog E R)
| Raise (ex : exception)
| Try {A : Type} (body : Prog E A) (except : exception -> Prog E A)
      (k : A -> Prog E R).
Arguments Ret {E R}.
Arguments Vis {E R X}.
Arguments Raise {E R}.
Arguments Try {E R A}.

Definition call {E : Type -> Type} {X : Type} (e : E X) : Prog E X := Vis e Ret.

Fixpoint bind {E A B} (m : Prog E A) (f : A -> Prog E B) : Prog E B :=
  match m with
  | Ret a => f a
  | Vis e k => Vis e (fun x => bind (k x) f)
  | Raise ex => Raise ex
  | Try body except k => Try body except (fun a => bind (k a) f)
  end.

Declare Scope prog_scope.
Delimit Scope prog_scope with prog.
Notation "x <- m ;; k" := (bind m (fun x => k))
  (at level 100, m at next level, right associativity) : prog_scope.

(** How a world of type [S] answers the events of [E]. *)
Definition handler (E : Type -> Type) (S : Type) : Type :=
  forall X : Type, E X -> S -> outcome X * S.

Fixpoint exec {E S R} (h : handler E S) (p : Prog E R) (s : S) : outcome R * S :=
  match p with
  | Ret r => (Returned r, s)
  | Vis e k =>
      match h _ e s with
      | (Returned x, s') => exec h (k x) s'
      | (Raised ex, s') => (Raised ex, s')
      end
  | Raise ex => (Raised ex, s)
  | Try body except k =>
      match exec h body s with
      | (Returned a, s') => exec h (k a) s'
      | (Raised ex, s') =>
          match exec h (except ex) s' with
          | (Returned a, s'') => exec h (k a) s''
          | (Raised ex', s'') => (Raised ex', s'')
          end
      end
  end.

(** A program free of [raise] and of try/except. *)
Inductive error_free {E : Type -> Type} {R : Type} : Prog E R -> Prop :=
| error_free_Ret (r : R) : error_free (Ret r)
| error_free_Vis {X} (e : E X) (k : X -> Prog E R) :
    (forall x, error_free (k x)) -> error_free (Vis e k).

(** ** Events of the script *)

(** Identity of the calls that leave the script. *)
Inductive harness_call : Type :=
| CallGenerateNamespace
| CallGenerateTestDescriptionWithNsys
| CallRunBenchmark.

(** What Python code can do to a descriptor object it holds a reference
    to: assign to its attributes, or destroy it. *)
Inductive heapE : Type -> Type :=
| SetAttribute (l : loc) (update : ComposableNode.t -> ComposableNode.t) : heapE unit
| DeleteDescriptor (l : loc) : heapE unit.

(** What a function body like [launch_setup] can do besides building
    values: ask the test class for a namespace, create a descriptor
    object, or act on an existing one. *)
Inductive launchE : Type -> Type :=
| GenerateNamespace : launchE string
| NewComposableNode (d : ComposableNode.t) : launchE loc
| OnDescriptor {X : Type} (e : heapE X) : launchE X.

Definition LaunchSetup (Prefix Timeout : Type) : Type :=
  Prefix -> Timeout -> Prog launchE (list (ComposableNodeContainer.t Prefix Timeout)).

(** What a hook can do: call into the harness, or act on a descriptor
    object. *)
Inductive hookE (Prefix Timeout LaunchDescription : Type) : Type -> Type :=
| GenerateTestDescriptionWithNsys (setup : LaunchSetup Prefix Timeout) :
    hookE Prefix Timeout LaunchDescription LaunchDescription
| RunBenchmark : hookE Prefix Timeout LaunchDescription unit
| HookOnDescriptor {X : Type} (e : heapE X) : hookE Prefix Timeout LaunchDescription X.
Arguments GenerateTestDescriptionWithNsys {Prefix Timeout LaunchDescription}.
Arguments RunBenchmark {Prefix Timeout LaunchDescription}.
Arguments HookOnDescriptor {Prefix Timeout LaunchDescription X}.

(** The events that change or remove an existing descriptor. *)
Definition launch_mutates (X : Type) (e : launchE X) : bool :=
  match e with
  | OnDescriptor _ => true
  | _ => false
  end.

Definition hook_mutates {Prefix Timeout LaunchDescription : Type}
    (X : Type) (e : hookE Prefix Timeout LaunchDescription X) : bool :=
  match e with
  | HookOnDescriptor _ => true
  | _ => false
  end.

(** A program none of whose steps, on any path, changes or removes a
    descriptor. *)
Inductive mutation_free {E : Type -> Type} (mutates : forall X, E X -> bool)
  : forall {R : Type}, Prog E R -> Prop :=
| mutation_free_Ret {R} (r : R) : mutation_free mutates (Ret r)
| mutation_free_Vis {R X} (e : E X) (k : X -> Prog E R) :
    mutates X e = false ->
    (forall x, mutation_free mutates (k x)) ->
    mutation_free mutates (Vis e k)
| mutation_free_Raise {R} (ex : exception) : mutation_free mutates (@Raise E R ex)
| mutation_free_Try {R A} (body : Prog E A) (except : exception -> Prog E A)
    (k : A -> Prog E R) :
    mutation_free mutates body ->
    (forall ex, mutation_free mutates (except ex)) ->
    (forall a, mutation_free mutates (k a)) ->
    mutation_free mutates (Try body except k).

(** ** The script *)

Definition ROSBAG_PATH : string := "datasets/r2b_dataset/r2b_hideaway".

(** The six descriptors of [launch_setup], each as a function of the
    namespace its constructor call receives. *)

Definition nvblox_node (namespace : string) : ComposableNode.t :=
  {| ComposableNode.name := "NvbloxNode";
     ComposableNode.package := "nvblox_ros";
     ComposableNode.plugin := "nvblox::NvbloxNode";
     ComposableNode.namespace := namespace;
     ComposableNode.parameters :=
       [ [ ("global_frame", PStr "odom");
           ("voxel_size", PFloat 0.10);
           ("slice_height", PFloat 0.75);
           ("min_height", PFloat 0.3);
           ("max_height", PFloat 1.0);
           ("esdf", PBool true);
           ("esdf_2d", PBool true);
           ("mesh", PBool true);
           ("distance_slice", PBool true);
           ("tsdf_integrator_max_integration_distance_m", PFloat 5.0);
           ("tsdf_integrator_truncation_distance_vox", PFloat 4.0);
           ("tsdf_integrator_max_weight", PFloat 20.0);
           ("esdf_integrator_min_weight", PFloat 2.0);
           ("esdf_integrator_max_distance_m", PFloat 2.0);
           ("esdf_integrator_min_site_distance_vox", PFloat 1.0);
           ("max_tsdf_update_hz", PFloat 0.0);
           ("max_color_update_hz", PFloat 5.0);
           ("max_mesh_update_hz", PFloat 0.0);
           ("max_esdf_update_hz", PFloat 0.0) ];
         [ ("use_sim_time", PBool false) ] ];
     ComposableNode.remappings :=
       [ ("depth/image", "depth");
         ("depth/camera_info", "depth/camera_info");
         ("color/image", "left/rgb");
         ("color/camera_info", "left/camera_info") ];
     ComposableNode.extra_arguments := None |}.

Definition data_loader_node (namespace : string) : ComposableNode.t :=
  {| ComposableNode.name := "DataLoaderNode";
     ComposableNode.namespace := namespace;
     ComposableNode.package := "ros2_benchmark";
     ComposableNode.plugin := "ros2_benchmark::DataLoaderNode";
     ComposableNode.parameters := [ [ ("publisher_period_ms", PInt 1) ] ];
     ComposableNode.remappings :=
       [ ("d455_1_depth_image", "data_loader/depth");
         ("d455_1_depth_camera_info", "data_loader/depth/camera_info");
         ("d455_1_rgb_image", "data_loader/left/rgb");
         ("d455_1_rgb_camera_info", "data_loader/left/camera_info") ];
     ComposableNode.extra_arguments := None |}.

Definition visual_slam_node (namespace : string) : ComposableNode.t :=
  {| ComposableNode.name := "VisualSlamNode";
     ComposableNode.namespace := namespace;
     ComposableNode.package := "isaac_ros_visual_slam";
     ComposableNode.plugin := "isaac_ros::visual_slam::VisualSlamNode";
     ComposableNode.remappings :=
       [ ("stereo_camera/left/image", "hawk_0_left_rgb_image");
         ("stereo_camera/left/camera_info", "hawk_0_left_rgb_camera_info");
         ("stereo_camera/right/image", "hawk_0_right_rgb_image");
         ("stereo_camera/right/camera_info", "hawk_0_right_rgb_camera_info");
         ("/tf", "visual_slam/tf") ];
     ComposableNode.parameters :=
       [ [ ("enable_rectified_pose", PBool true);
           ("denoise_input_images", PBool false);
           ("rectified_images", PBool true) ] ];
     ComposableNode.extra_arguments :=
       Some [ [ ("use_intra_process_comms", PBool false) ] ] |}.

Definition playback_node (namespace : string) : ComposableNode.t :=
  {| ComposableNode.name := "PlaybackNode";
     ComposableNode.namespace := namespace;
     ComposableNode.package := "isaac_ros_benchmark";
     ComposableNode.plugin := "isaac_ros_benchmark::NitrosPlaybackNode";
     ComposableNode.parameters :=
       [ [ ("data_formats",
            PStrList [ "sensor_msgs/msg/Image";
                       "sensor_msgs/msg/CameraInfo";
                       "sensor_msgs/msg/Image";
                       "sensor_msgs/msg/CameraInfo";
                       "tf2_msgs/msg/TFMessage" ]) ] ];
     ComposableNode.remappings :=
       [ ("buffer/input0", "data_loader/depth");
         ("input0", "depth");
         ("buffer/input1", "data_loader/depth/camera_info");
         ("input1", "depth/camera_info");
         ("buffer/input2", "data_loader/left/rgb");
         ("input2", "left/rgb");
         ("buffer/input3", "data_loader/left/camera_info");
         ("input3", "left/camera_info");
         ("buffer/input4", "visual_slam/tf");
         ("input4", "/tf") ];
     ComposableNode.extra_arguments := None |}.

Definition monitor_node0 (namespace : string) : ComposableNode.t :=
  {| ComposableNode.name := "MonitorNode0";
     ComposableNode.namespace := namespace;
     ComposableNode.package := "isaac_ros_benchmark";
     ComposableNode.plugin := "isaac_ros_benchmark::NitrosMonitorNode";
     ComposableNode.parameters :=
       [ [ ("monitor_data_format", PStr "nvblox_msgs/msg/Mesh");
           ("monitor_index", PInt 0) ] ];
     ComposableNode.remappings := [ ("output", "NvbloxNode/mesh") ];
     ComposableNode.extra_arguments := None |}.

Definition monitor_node1 (namespace : string) : ComposableNode.t :=
  {| ComposableNode.name := "MonitorNode1";
     ComposableNode.namespace := namespace;
     ComposableNode.package := "isaac_ros_benchmark";
     ComposableNode.plugin := "isaac_ros_benchmark::NitrosMonitorNode";
     ComposableNode.parameters :=
       [ [ ("monitor_data_format", PStr "nvblox_msgs/msg/DistanceMapSlice");
           ("monitor_index", PInt 1) ] ];
     ComposableNode.remappings := [ ("output", "NvbloxNode/map_slice") ];
     ComposableNode.extra_arguments := None |}.

(** [TestIsaacROSNvbloxNode.generate_namespace()]: a class method the test
    class inherits from the harness. *)
Definition generate_namespace : Prog launchE string := call GenerateNamespace.

(** [launch_setup]: every constructor call evaluates its own
    [generate_namespace()] among its arguments, then creates the object;
    the container lists the six objects in the order of the script. *)
Definition launch_setup {Prefix Timeout : Type}
    (container_prefix : Prefix) (container_sigterm_timeout : Timeout)
  : Prog launchE (list (ComposableNodeContainer.t Prefix Timeout)) :=
  (ns <- generate_namespace ;;
   nvblox <- call (NewComposableNode (nvblox_node ns)) ;;
   ns <- generate_namespace ;;
   data_loader <- call (NewComposableNode (data_loader_node ns)) ;;
   ns <- generate_namespace ;;
   visual_slam <- call (NewComposableNode (visual_slam_node ns)) ;;
   ns <- generate_namespace ;;
   playback <- call (NewComposableNode (playback_node ns)) ;;
   ns <- generate_namespace ;;
   monitor0 <- call (NewComposableNode (monitor_node0 ns)) ;;
   ns <- generate_namespace ;;
   monitor1 <- call (NewComposableNode (monitor_node1 ns)) ;;
   ns <- generate_namespace ;;
   let composable_node_container :=
     {| ComposableNodeContainer.name := "container";
        ComposableNodeContainer.namespace := ns;
        ComposableNodeContainer.package := "rclcpp_components";
        ComposableNodeContainer.executable := "component_container_mt";
        ComposableNodeContainer.prefix := container_prefix;
        ComposableNodeContainer.sigterm_timeout := container_sigterm_timeout;
        ComposableNodeContainer.composable_node_descriptions :=
          [ data_loader; visual_slam; playback; monitor0; monitor1; nvblox ];
        ComposableNodeContainer.output := "screen" |} in
   Ret [ composable_node_container ])%prog.

(** [generate_test_description]: hands [launch_setup] to the harness and
    returns what the harness returns. *)
Definition generate_test_description {Prefix Timeout LaunchDescription : Type}
  : Prog (hookE Prefix Timeout LaunchDescription) LaunchDescription :=
  call (GenerateTestDescriptionWithNsys launch_setup).

(** [TestIsaacROSNvbloxNode.config], evaluated in the class body. *)
Definition config : ROS2BenchmarkConfig :=
  mkROS2BenchmarkConfig
    [ ("benchmark_name", CStr "Isaac ROS NvbloxNode Benchmark");
      ("input_data_path", CStr ROSBAG_PATH);
      ("benchmark_mode", CEnum "BenchmarkMode" "TIMELINE");
      ("enable_trial_buffer_preparation", CBool true);
      ("load_data_in_real_time", CBool true);
      ("record_data_timeline", CBool true);
      ("publish_tf_static_messages_in_set_data", CBool true);
      ("playback_message_buffer_size", CInt 0);
      ("start_recording_service_timeout_sec", CInt 20);
      ("start_recording_service_future_timeout_sec", CInt 25);
      ("start_monitoring_service_timeout_sec", CInt 30);
      ("play_messages_service_future_timeout_sec", CInt 25);
      ("default_service_future_timeout_sec", CInt 35);
      ("monitor_info_list",
       CMonitors
         [ mkMonitorPerformanceCalculatorsInfo "start_monitoring0"
             [ mkBasicPerformanceCalculator [ ("report_prefix", PStr "mesh") ] ];
           mkMonitorPerformanceCalculatorsInfo "start_monitoring1"
             [ mkBasicPerformanceCalculator [ ("report_prefix", PStr "map_slice") ] ] ]) ].

(** The class body of [TestIsaacROSNvbloxNode] as a program: it binds
    [config] and calls nothing else. *)
Definition class_body {E : Type -> Type} : Prog E ROS2BenchmarkConfig := Ret config.

(** [TestIsaacROSNvbloxNode.test_benchmark]: [self.run_benchmark()]. *)
Definition test_benchmark {Prefix Timeout LaunchDescription : Type}
  : Prog (hookE Prefix Timeout LaunchDescription) unit :=
  call RunBenchmark.

(** ** The module as the harness sees it *)





(** ** The harness and the world the script runs in *)

(** The three harness entry points the script calls, over a harness state
    [H].  Each may return or raise. *)
Record Harness (Prefix Timeout LaunchDescription H : Type) : Type := mkHarness {
  generate_namespace_impl : H -> outcome string * H;
  generate_test_description_with_nsys_impl :
    LaunchSetup Prefix Timeout -> H -> outcome LaunchDescription * H;
  run_benchmark_impl : H -> outcome unit * H
}.
Arguments mkHarness {Prefix Timeout LaunchDescription H}.
Arguments generate_namespace_impl {Prefix Timeout LaunchDescription H}.
Arguments generate_test_description_with_nsys_impl {Prefix Timeout LaunchDescription H}.
Arguments run_benchmark_impl {Prefix Timeout LaunchDescription H}.

(** The descriptor objects alive, the state of the harness, and the calls
    made into the harness so far. *)
Record World (H : Type) : Type := mkWorld {
  heap : gmap loc ComposableNode.t;
  harness_state : H;
  calls : list harness_call
}.
Arguments mkWorld {H}.
Arguments heap {H}.
Arguments harness_state {H}.
Arguments calls {H}.

(** A call into the harness: the answer and the next harness state come
    from the harness, the descriptor objects are out of its reach. *)
Definition harness_answer {H X : Type} (c : harness_call)
    (impl : H -> outcome X * H) (w : World H) : outcome X * World H :=
  let '(o, h') := impl (harness_state w) in
  (o, mkWorld (heap w) h' (calls w ++ [c])).

(** An attribute assignment rewrites the descriptor the reference points
    to; a deletion removes it. *)
Definition on_descriptor {H X : Type} (e : heapE X) : World H -> outcome X * World H :=
  match e in heapE X return World H -> outcome X * World H with
  | SetAttribute l update =>
      fun w => (Returned tt, mkWorld (alter update l (heap w)) (harness_state w) (calls w))
  | DeleteDescriptor l =>
      fun w => (Returned tt, mkWorld (delete l (heap w)) (harness_state w) (calls w))
  end.

Definition launch_handler {Prefix Timeout LaunchDescription H : Type}
    (hn : Harness Prefix Timeout LaunchDescription H)
  : handler launchE (World H) :=
  fun X e =>
    match e in launchE X return World H -> outcome X * World H with
    | GenerateNamespace =>
        harness_answer CallGenerateNamespace (generate_namespace_impl hn)
    | NewComposableNode d =>
        fun w =>
          let l := fresh (dom (heap w)) in
          (Returned l, mkWorld (<[l := d]> (heap w)) (harness_state w) (calls w))
    | OnDescriptor e' => on_descriptor e'
    end.

Definition hook_handler {Prefix Timeout LaunchDescription H : Type}
    (hn : Harness Prefix Timeout LaunchDescription H)
  : handler (hookE Prefix Timeout LaunchDescription) (World H) :=
  fun X e =>
    match e in hookE _ _ _ X return World H -> outcome X * World H with
    | GenerateTestDescriptionWithNsys setup =>
        harness_answer CallGenerateTestDescriptionWithNsys
          (generate_test_description_with_nsys_impl hn setup)
    | RunBenchmark =>
        harness_answer CallRunBenchmark (run_benchmark_impl hn)
    | HookOnDescriptor e' => on_descriptor e'
    end.

(** The operations of the script: what can be run once the module is
    loaded, and by whom ([launch_setup] by the launcher with its two
    arguments, the hooks by the harness, the class body at import). *)
Inductive operation (Prefix Timeout : Type) : Type :=
| OpLaunchSetup (container_prefix : Prefix) (container_sigterm_timeout : Timeout)
| OpGenerateTestDescription
| OpClassBody
| OpTestBenchmark.
Arguments OpLaunchSetup {Prefix Timeout}.
Arguments OpGenerateTestDescription {Prefix Timeout}.
Arguments OpClassBody {Prefix Timeout}.
Arguments OpTestBenchmark {Prefix Timeout}.

Definition perform {Prefix Timeout LaunchDescription H : Type}
    (hn : Harness Prefix Timeout LaunchDescription H)
    (w : World H) (op : operation Prefix Timeout) : World H :=
  match op with
  | OpLaunchSetup p t => snd (exec (launch_handler hn) (launch_setup p t) w)
  | OpGenerateTestDescription => snd (exec (hook_handler hn) generate_test_description w)
  | OpClassBody => snd (exec (hook_handler hn) class_body w)
  | OpTestBenchmark => snd (exec (hook_handler hn) test_benchmark w)
  end.

Definition perform_all {Prefix Timeout LaunchDescription H : Type}
    (hn : Harness Prefix Timeout LaunchDescription H)
    (ops : list (operation Prefix Timeout)) (w : World H) : World H :=
  fold_left (perform hn) ops w.

(** The harness answers every [generate_namespace()] call. *)
Definition namespace_total {Prefix Timeout LaunchDescription H : Type}
    (hn : Harness Prefix Timeout LaunchDescription H) : Prop :=
  forall h, exists ns h', generate_namespace_impl hn h = (Returned ns, h').

(** [generate_namespace()] is a constant of the test class: it answers
    [ns] whatever the harness state. *)
Definition namespace_constant {Prefix Timeout LaunchDescription H : Type}
    (hn : Harness Prefix Timeout LaunchDescription H) (ns : string) : Prop :=
  forall h, fst (generate_namespace_impl hn h) = Returned ns.

(** A harness without state whose class method answers [ns]. *)
Definition static_harness (ns : string) : Harness string Z unit unit :=
  {| generate_namespace_impl := fun h => (Returned ns, h);
     generate_test_description_with_nsys_impl := fun _ h => (Returned tt, h);
     run_benchmark_impl := fun h => (Returned tt, h) |}.

Definition empty_world : World unit := mkWorld ∅ tt [].

(** ** Reading the wiring *)

(** The descriptors a container refers to, read from the heap. *)
Definition graph_of {Prefix Timeout H : Type} (w : World H)
    (c : ComposableNodeContainer.t Prefix Timeout) : list ComposableNode.t :=
  omap (fun l => heap w !! l) (ComposableNodeContainer.composable_node_descriptions c).

(** The names on the shared bus a descriptor ties its node to: the
    physical side of its remappings. *)
Definition bus_topics (d : ComposableNode.t) : list string :=
  List.map snd (ComposableNode.remappings d).



(** Number of remappings of [d] with logical name [k]. *)
Definition count_logical (k : string) (d : ComposableNode.t) : nat :=
  length (List.filter (fun r => String.eqb (fst r) k) (ComposableNode.remappings d)).

(** The physical names of the remappings whose logical name is in [ks],
    in the order of [ks]. *)
Definition physical_of (ks : list string) (d : ComposableNode.t) : list (option string) :=
  List.map (fun k => remap_get k (ComposableNode.remappings d)) ks.

(** Decimal writing of an index, as in ['input' + str(i)]. *)
Definition str (i : nat) : string := NilEmpty.string_of_uint (Nat.to_uint i).

Definition mentions_timeout (k : string) : bool :=
  match String.index 0 "timeout" k with
  | Some _ => true
  | None => false
  end.

Definition is_integer (v : config_value) : bool :=
  match v with
  | CInt _ => true
  | _ => false
  end.

Definition parameter_keys (d : ComposableNode.t) : list string :=
  List.map fst (concat (ComposableNode.parameters d)).

(** [n] is something the harness answers to [generate_namespace()]. *)
Definition answered {Prefix Timeout LaunchDescription H : Type}
    (hn : Harness Prefix Timeout LaunchDescription H) (n : string) : Prop :=
  exists h, fst (generate_namespace_impl hn h) = Returned n.

(** The harness raises [ex] on some [generate_namespace()] call. *)
Definition namespace_raises {Prefix Timeout LaunchDescription H : Type}
    (hn : Harness Prefix Timeout LaunchDescription H) (ex : exception) : Prop :=
  exists h h', generate_namespace_impl hn h = (Raised ex, h').

(** The six descriptors in the order of the container's list, all with
    one namespace. *)
Definition fixed_descriptors (ns : string) : list ComposableNode.t :=
  [ data_loader_node ns; visual_slam_node ns; playback_node ns;
    monitor_node0 ns; monitor_node1 ns; nvblox_node ns ].

(** What a descriptor carries besides its identity and namespace. *)
Definition tables (d : ComposableNode.t)
  : list dict * list remapping * option (list dict) :=
  (ComposableNode.parameters d, ComposableNode.remappings d,
   ComposableNode.extra_arguments d).

(** The names of the descriptors of [g] that tie their node to [topic]. *)
Definition declared_by (g : list ComposableNode.t) (topic : string) : list string :=
  List.map ComposableNode.name
    (List.filter (fun d => existsb (String.eqb topic) (bus_topics d)) g).

(** ** Reading a run *)




(** No string of [l1] is in [l2]. *)
Definition disjointb (l1 l2 : list string) : bool :=
  forallb (fun a => negb (existsb (String.eqb a) l2)) l1.

(** Every string of [l1] is in [l2]. *)
Definition subsetb (l1 l2 : list string) : bool :=
  forallb (fun a => existsb (String.eqb a) l2) l1.

(** No string occurs twice in [l]. *)
Fixpoint distinctb (l : list string) : bool :=
  match l with
  | [] => true
  | a :: l' => negb (existsb (String.eqb a) l') && distinctb l'
  end.

(** The descriptor called [n] in [g]. *)
Definition node_named (n : string) (g : list ComposableNode.t) : option ComposableNode.t :=
  List.find (fun d => String.eqb (ComposableNode.name d) n) g.

(** The remappings of [d] whose logical name starts with ['buffer/']
    (what PlaybackNode records) and the others (what it plays back),
    physical side. *)
Definition recorded_topics (d : ComposableNode.t) : list string :=
  List.map snd
    (List.filter (fun r => String.prefix "buffer/" (fst r)) (ComposableNode.remappings d)).

Definition played_topics (d : ComposableNode.t) : list string :=
  List.map snd
    (List.filter (fun r => negb (String.prefix "buffer/" (fst r)))
       (ComposableNode.remappings d)).

Definition harness_call_eqb (a b : harness_call) : bool :=
  match a, b with
  | CallGenerateNamespace, CallGenerateNamespace => true
  | CallGenerateTestDescriptionWithNsys, CallGenerateTestDescriptionWithNsys => true
  | CallRunBenchmark, CallRunBenchmark => true
  | _, _ => false
  end.

(** How often [c] occurs in a call log. *)
Definition count_call (c : harness_call) (log : list harness_call) : nat :=
  length (List.filter (harness_call_eqb c) log).

(** The one harness call a hook makes, if the operation is a hook. *)
Definition hook_call_of {Prefix Timeout : Type} (op : operation Prefix Timeout)
  : option harness_call :=
  match op with
  | OpGenerateTestDescription => Some CallGenerateTestDescriptionWithNsys
  | OpTestBenchmark => Some CallRunBenchmark
  | OpLaunchSetup _ _ => None
  | OpClassBody => None
  end.

(** How many operations of [ops] are the hook that calls [c]. *)
Definition count_hook {Prefix Timeout : Type} (c : harness_call)
    (ops : list (operation Prefix Timeout)) : nat :=
  length
    (List.filter
       (fun op => match hook_call_of op with
                  | Some c' => harness_call_eqb c c'
                  | None => false
                  end) ops).

(** How many operations of [ops] are runs of [launch_setup]. *)
Definition count_launches {Prefix Timeout : Type}
    (ops : list (operation Prefix Timeout)) : nat :=
  length
    (List.filter
       (fun op => match op with
                  | OpLaunchSetup _ _ => true
                  | _ => false
                  end) ops).

(** * Running programs *)

Section ProgFacts.
Context {E : Type -> Type} {S : Type} (h : handler E S).

Lemma exec_bind {A B} (m : Prog E A) (f : A -> Prog E B) (s : S) :
  exec h (bind m f) s =
  match exec h m s with
  | (Returned a, s') => exec h (f a) s'
  | (Raised ex, s') => (Raised ex, s')
  end.
Proof.
  revert B f s.
  induction m as [A r | A X e k IH | A ex | A A' body IHb except IHe k IHk];
    intros B f s; simpl.
  - reflexivity.
  - destruct (h X e s) as [[x | ex] s']; [apply IH | reflexivity].
  - reflexivity.
  - destruct (exec h body s) as [[a | ex] s1]; [apply IHk |].
    destruct (exec h (except ex) s1) as [[a | ex'] s2]; [apply IHk | reflexivity].
Qed.

Lemma exec_call {X} (e : E X) (s : S) : exec h (call e) s = h X e s.
Proof. unfold call. simpl. by destruct (h X e s) as [[x | ex] s']. Qed.

(** A program without [raise] and try/except ends in an exception only
    when one of its calls did, and with that very exception. *)
Lemma exec_error_free {R} (p : Prog E R) (s : S) :
  error_free p ->
  (exists r s', exec h p s = (Returned r, s')) \/
  (exists X (e : E X) s0 ex s',
      h X e s0 = (Raised ex, s') /\ exec h p s = (Raised ex, s')).
Proof.
  intros Hp. revert s.
  induction Hp as [r | X e k _ IH]; intros s; simpl.
  - left. by eexists _, _.
  - destruct (h X e s) as [[x | ex] s'] eqn:He.
    + apply IH.
    + right. by exists X, e, s, ex, s'.
Qed.
End ProgFacts.

Lemma error_free_bind {E A B} (m : Prog E A) (f : A -> Prog E B) :
  error_free m -> (forall a, error_free (f a)) -> error_free (bind m f).
Proof.
  intros Hm Hf. induction Hm as [r | X e k _ IH]; simpl.
  - apply Hf.
  - constructor. intros x. apply IH.
Qed.

Lemma error_free_call {E X} (e : E X) : error_free (call e).
Proof. constructor. intros x. constructor. Qed.

Create HintDb script.
#[local] Hint Resolve error_free_call error_free_Ret : script.

Lemma launch_setup_error_free {Prefix Timeout} (p : Prefix) (t : Timeout) :
  error_free (launch_setup p t).
Proof.
  unfold launch_setup, generate_namespace.
  repeat (apply error_free_bind; [auto with script | intros ?]).
  constructor.
Qed.

(** * The world under the script's own events *)

Lemma mutation_free_bind {E : Type -> Type} (mutates : forall X, E X -> bool)
    {A B} (m : Prog E A) (f : A -> Prog E B) :
  mutation_free mutates m ->
  (forall a, mutation_free mutates (f a)) ->
  mutation_free mutates (bind m f).
Proof.
  intros Hm. revert B f.
  induction Hm as [A r | A X e k He _ IH | A ex | A A' body except k Hb _ He _ _ IHk];
    intros B f Hf; simpl.
  - apply Hf.
  - constructor; [exact He |]. intros x. by apply IH.
  - constructor.
  - constructor; [exact Hb | exact He |]. intros a. by apply IHk.
Qed.

Lemma mutation_free_call {E : Type -> Type} (mutates : forall X, E X -> bool)
    {X} (e : E X) :
  mutates X e = false -> mutation_free mutates (call e).
Proof. intros He. constructor; [exact He |]. intros x. constructor. Qed.

Lemma launch_setup_mutation_free {Prefix Timeout} (p : Prefix) (t : Timeout) :
  mutation_free launch_mutates (launch_setup p t).
Proof.
  unfold launch_setup, generate_namespace.
  repeat (apply mutation_free_bind; [by apply mutation_free_call | intros ?]).
  constructor.
Qed.

Section Frame.
Context {E : Type -> Type} {H : Type}.
Context (hd : handler E (World H)) (mutates : forall X, E X -> bool).
Context (Hstep : forall X (e : E X) (w : World H) l d,
            mutates X e = false ->
            heap w !! l = Some d -> heap (snd (hd X e w)) !! l = Some d).

(** A program that never acts on an existing descriptor leaves every
    descriptor what it is, on every path, exceptions included. *)
Lemma exec_frame {R} (p : Prog E R) (w : World H) l d :
  mutation_free mutates p ->
  heap w !! l = Some d ->
  heap (snd (exec hd p w)) !! l = Some d.
Proof using Hstep.
  intros Hp. revert w.
  induction Hp as [R r | R X e k He _ IH | R ex
                  | R A body except k _ IHb _ IHe _ IHk];
    intros w Hl; simpl.
  - done.
  - pose proof (Hstep X e w l d He Hl) as Hf.
    destruct (hd X e w) as [[x | ex] w']; simpl in *; [by apply IH | done].
  - done.
  - specialize (IHb w Hl).
    destruct (exec hd body w) as [[a | ex] w1]; simpl in *; [by apply IHk |].
    specialize (IHe ex w1 IHb).
    destruct (exec hd (except ex) w1) as [[a | ex'] w2]; simpl in *;
      [by apply IHk | done].
Qed.
End Frame.

Section WorldFacts.
Context {Prefix Timeout LaunchDescription H : Type}.
Context (hn : Harness Prefix Timeout LaunchDescription H).

Lemma harness_answer_heap {X} c (impl : H -> outcome X * H) (w : World H) :
  heap (snd (harness_answer c impl w)) = heap w.
Proof. unfold harness_answer. by destruct (impl (harness_state w)). Qed.

Lemma launch_handler_frame {X} (e : launchE X) (w : World H) l d :
  launch_mutates X e = false ->
  heap w !! l = Some d ->
  heap (snd (launch_handler hn X e w)) !! l = Some d.
Proof.
  intros He Hl. destruct e as [| d' | X e']; simpl.
  - by rewrite harness_answer_heap.
  - rewrite lookup_insert_ne; [done |].
    intros <-. apply (is_fresh (dom (heap w))).
    apply elem_of_dom. by exists d.
  - discriminate He.
Qed.

(** A program over [launchE] that never acts on an existing descriptor
    keeps the descriptors that exist: its only heap event creates a new
    object. *)
Lemma exec_launch_frame {R} (p : Prog launchE R) (w : World H) l d :
  mutation_free launch_mutates p ->
  heap w !! l = Some d ->
  heap (snd (exec (launch_handler hn) p w)) !! l = Some d.
Proof. apply exec_frame. intros X e w0 l0 d0. apply launch_handler_frame. Qed.

Lemma hook_handler_heap {X} (e : hookE Prefix Timeout LaunchDescription X) (w : World H) :
  hook_mutates X e = false ->
  heap (snd (hook_handler hn X e w)) = heap w.
Proof.
  intros He. destruct e; simpl; [apply harness_answer_heap .. | discriminate He].
Qed.

Lemma perform_frame (op : operation Prefix Timeout) (w : World H) l d :
  heap w !! l = Some d -> heap (perform hn w op) !! l = Some d.
Proof.
  intros Hl. destruct op as [p t | | |]; unfold perform.
  - by apply exec_launch_frame; [apply launch_setup_mutation_free |].
  - unfold generate_test_description. by rewrite exec_call, hook_handler_heap.
  - done.
  - unfold test_benchmark. by rewrite exec_call, hook_handler_heap.
Qed.

Lemma perform_all_frame (ops : list (operation Prefix Timeout)) (w : World H) l d :
  heap w !! l = Some d -> heap (perform_all hn ops w) !! l = Some d.
Proof.
  revert w. induction ops as [| op ops IH]; intros w Hl; simpl; [done |].
  apply IH. by apply perform_frame.
Qed.
End WorldFacts.

(** * [launch_setup], run *)

Section LaunchSetup.
Context {Prefix Timeout LaunchDescription H : Type}.
Context (hn : Harness Prefix Timeout LaunchDescription H).

(** One [generate_namespace()] call: the harness answers and the program
    goes on, or the harness raises and the program ends there. *)
Lemma exec_namespace {R} (k : string -> Prog launchE R) (w : World H) :
  (exists n w1,
      answered hn n /\ heap w1 = heap w /\
      calls w1 = calls w ++ [CallGenerateNamespace] /\
      exec (launch_handler hn) (bind generate_namespace k) w =
      exec (launch_handler hn) (k n) w1) \/
  (exists ex w1,
      namespace_raises hn ex /\
      exec (launch_handler hn) (bind generate_namespace k) w = (Raised ex, w1)).
Proof.
  destruct (generate_namespace_impl hn (harness_state w)) as [[n | ex] h'] eqn:Hn.
  - left. exists n, (mkWorld (heap w) h' (calls w ++ [CallGenerateNamespace])).
    split; [exists (harness_state w); by rewrite Hn |].
    do 2 (split; [done |]).
    simpl. unfold harness_answer. by rewrite Hn.
  - right. exists ex, (mkWorld (heap w) h' (calls w ++ [CallGenerateNamespace])).
    split; [by exists (harness_state w), h' |].
    simpl. unfold harness_answer. by rewrite Hn.
Qed.

(** One constructor call [ComposableNode(..., namespace=generate_namespace(), ...)]:
    a namespace is asked for, then a new object holds the descriptor. *)
Lemma exec_stage {R} (mk : string -> ComposableNode.t) (k : loc -> Prog launchE R)
    (w : World H) :
  (exists n l w1,
      answered hn n /\ heap w !! l = None /\ heap w1 !! l = Some (mk n) /\
      heap w ⊆ heap w1 /\
      calls w1 = calls w ++ [CallGenerateNamespace] /\
      exec (launch_handler hn)
        (bind generate_namespace (fun ns => bind (call (NewComposableNode (mk ns))) k)) w =
      exec (launch_handler hn) (k l) w1) \/
  (exists ex w1,
      namespace_raises hn ex /\
      exec (launch_handler hn)
        (bind generate_namespace (fun ns => bind (call (NewComposableNode (mk ns))) k)) w =
      (Raised ex, w1)).
Proof.
  destruct (exec_namespace (fun ns => bind (call (NewComposableNode (mk ns))) k) w)
    as [(n & w0 & Hn & Hheap & Hcalls & ->) | Hraise]; [left | by right].
  assert (Hfresh : heap w !! fresh (dom (heap w0)) = None).
  { rewrite Hheap. apply not_elem_of_dom, is_fresh. }
  exists n, (fresh (dom (heap w0))),
    (mkWorld (<[fresh (dom (heap w0)) := mk n]> (heap w0)) (harness_state w0) (calls w0)).
  split; [done |]. split; [done |].
  split; [simpl; apply lookup_insert_eq |].
  split; [simpl; rewrite Hheap in Hfresh |- *; by apply insert_subseteq |].
  split; [done |]. reflexivity.
Qed.

Tactic Notation "stage" constr(mk) "as" simple_intropattern(pat) :=
  match goal with
  | |- context [exec _ (bind generate_namespace
                          (fun ns => bind (call (NewComposableNode (@?f ns))) ?k)) ?w] =>
      destruct (exec_stage mk k w) as [pat | (?ex & ?w1 & ? & ->)];
      [| right; eexists _, _; by split]
  end.

(** The run of [launch_setup] in full.  Either it returns one container:
    then the six descriptor objects it refers to are there, with the
    namespaces the harness answered, next to the heap that was there
    before, and seven calls were made.  Or the harness raised on a
    [generate_namespace()] call and that exception is the outcome. *)
Lemma launch_setup_runs (p : Prefix) (t : Timeout) (w : World H) :
  (exists n0 n1 n2 n3 n4 n5 n6 l0 l1 l2 l3 l4 l5 w',
      exec (launch_handler hn) (launch_setup p t) w =
        (Returned
           [ {| ComposableNodeContainer.name := "container";
                ComposableNodeContainer.namespace := n6;
                ComposableNodeContainer.package := "rclcpp_components";
                ComposableNodeContainer.executable := "component_container_mt";
                ComposableNodeContainer.prefix := p;
                ComposableNodeContainer.sigterm_timeout := t;
                ComposableNodeContainer.composable_node_descriptions :=
                  [l1; l2; l3; l4; l5; l0];
                ComposableNodeContainer.output := "screen" |} ], w') /\
      Forall (answered hn) [n0; n1; n2; n3; n4; n5; n6] /\
      heap w' !! l0 = Some (nvblox_node n0) /\
      heap w' !! l1 = Some (data_loader_node n1) /\
      heap w' !! l2 = Some (visual_slam_node n2) /\
      heap w' !! l3 = Some (playback_node n3) /\
      heap w' !! l4 = Some (monitor_node0 n4) /\
      heap w' !! l5 = Some (monitor_node1 n5) /\
      Forall (fun l => heap w !! l = None) [l0; l1; l2; l3; l4; l5] /\
      heap w ⊆ heap w' /\
      calls w' = calls w ++ replicate 7 CallGenerateNamespace) \/
  (exists ex w',
      namespace_raises hn ex /\
      exec (launch_handler hn) (launch_setup p t) w = (Raised ex, w')).
Proof.
  unfold launch_setup.
  stage nvblox_node as (n0 & l0 & w0 & A0 & F0 & L0 & S0 & C0 & ->).
  stage data_loader_node as (n1 & l1 & w1 & A1 & F1 & L1 & S1 & C1 & ->).
  stage visual_slam_node as (n2 & l2 & w2 & A2 & F2 & L2 & S2 & C2 & ->).
  stage playback_node as (n3 & l3 & w3 & A3 & F3 & L3 & S3 & C3 & ->).
  stage monitor_node0 as (n4 & l4 & w4 & A4 & F4 & L4 & S4 & C4 & ->).
  stage monitor_node1 as (n5 & l5 & w5 & A5 & F5 & L5 & S5 & C5 & ->).
  match goal with
  | |- context [exec _ (bind generate_namespace ?k) ?w5] =>
      destruct (exec_namespace k w5)
        as [(n6 & w6 & A6 & Hheap & C6 & ->) | (ex & w6 & Hex & ->)];
      [left | right; by exists ex, w6]
  end.
  exists n0, n1, n2, n3, n4, n5, n6, l0, l1, l2, l3, l4, l5, w6.
  assert (S01 : heap w ⊆ heap w1) by (by etrans).
  assert (S02 : heap w ⊆ heap w2) by (by etrans).
  assert (S03 : heap w ⊆ heap w3) by (by etrans).
  assert (S04 : heap w ⊆ heap w4) by (by etrans).
  assert (S05 : heap w ⊆ heap w5) by (by etrans).
  assert (S45 : heap w4 ⊆ heap w6) by (by rewrite Hheap).
  assert (S35 : heap w3 ⊆ heap w6) by (by etrans).
  assert (S25 : heap w2 ⊆ heap w6) by (by etrans).
  assert (S15 : heap w1 ⊆ heap w6) by (by etrans).
  assert (S0' : heap w0 ⊆ heap w6) by (by etrans).
  split; [reflexivity |].
  split; [by repeat constructor |].
  split; [by eapply lookup_weaken |].
  split; [by eapply lookup_weaken |].
  split; [by eapply lookup_weaken |].
  split; [by eapply lookup_weaken |].
  split; [by eapply lookup_weaken |].
  split; [by rewrite Hheap |].
  split.
  { repeat constructor; [done | ..];
      eapply lookup_weaken_None; eauto. }
  split; [by rewrite Hheap |].
  rewrite C6, C5, C4, C3, C2, C1, C0. simpl. by rewrite <- !app_assoc.
Qed.

Lemma namespace_total_not_raises (ex : exception) :
  namespace_total hn -> ~ namespace_raises hn ex.
Proof.
  intros Htot (h & h' & Hr). destruct (Htot h) as (n & h'' & Hn). congruence.
Qed.

Lemma namespace_constant_total (ns : string) :
  namespace_constant hn ns -> namespace_total hn.
Proof.
  intros Hc h. specialize (Hc h).
  destruct (generate_namespace_impl hn h) as [o h']. simpl in Hc. subst o.
  by exists ns, h'.
Qed.

Lemma namespace_constant_answered (ns n : string) :
  namespace_constant hn ns -> answered hn n -> n = ns.
Proof. intros Hc (h & Hn). rewrite Hc in Hn. congruence. Qed.
End LaunchSetup.

(** * What the claims need of a run *)

Section Runs.
Context {Prefix Timeout LaunchDescription H : Type}.
Context (hn : Harness Prefix Timeout LaunchDescription H).

(** With a harness that answers, [launch_setup] returns; the descriptors
    are read back through the container's references. *)
Lemma launch_setup_returns (p : Prefix) (t : Timeout) (w : World H) :
  namespace_total hn ->
  exists c w' n0 n1 n2 n3 n4 n5,
    exec (launch_handler hn) (launch_setup p t) w = (Returned [c], w') /\
    ComposableNodeContainer.name c = "container" /\
    ComposableNodeContainer.executable c = "component_container_mt" /\
    ComposableNodeContainer.prefix c = p /\
    ComposableNodeContainer.sigterm_timeout c = t /\
    length (ComposableNodeContainer.composable_node_descriptions c) = 6 /\
    graph_of w' c =
      [ data_loader_node n1; visual_slam_node n2; playback_node n3;
        monitor_node0 n4; monitor_node1 n5; nvblox_node n0 ] /\
    Forall (answered hn)
      [ ComposableNodeContainer.namespace c; n0; n1; n2; n3; n4; n5 ] /\
    heap w ⊆ heap w' /\
    calls w' = calls w ++ replicate 7 CallGenerateNamespace.
Proof.
  intros Htot.
  destruct (launch_setup_runs hn p t w)
    as [(n0 & n1 & n2 & n3 & n4 & n5 & n6 & l0 & l1 & l2 & l3 & l4 & l5 & w'
         & Hexec & Hans & L0 & L1 & L2 & L3 & L4 & L5 & _ & Hsub & Hcalls)
       | (ex & w' & Hex & _)];
    [| by destruct (namespace_total_not_raises hn ex Htot)].
  eexists _, w', n0, n1, n2, n3, n4, n5.
  split; [exact Hexec |]. do 5 (split; [reflexivity |]).
  split; [unfold graph_of; simpl; by rewrite L0, L1, L2, L3, L4, L5 |].
  split; [| done].
  simpl. inversion_clear Hans as [| ? ? H0 Hans0].
  inversion_clear Hans0 as [| ? ? H1 Hans1].
  inversion_clear Hans1 as [| ? ? H2 Hans2].
  inversion_clear Hans2 as [| ? ? H3 Hans3].
  inversion_clear Hans3 as [| ? ? H4 Hans4].
  inversion_clear Hans4 as [| ? ? H5 Hans5].
  inversion_clear Hans5 as [| ? ? H6 _].
  by repeat constructor.
Qed.

End Runs.

(** The model runs: with a harness that answers [/r2b], the container
    refers to objects 2 to 6 and 1, in the order of the script. *)
Example launch_setup_static :
  fst (exec (launch_handler (static_harness "/r2b")) (launch_setup "" 0%Z) empty_world) =
  Returned
    [ {| ComposableNodeContainer.name := "container";
         ComposableNodeContainer.namespace := "/r2b";
         ComposableNodeContainer.package := "rclcpp_components";
         ComposableNodeContainer.executable := "component_container_mt";
         ComposableNodeContainer.prefix := "";
         ComposableNodeContainer.sigterm_timeout := 0%Z;
         ComposableNodeContainer.composable_node_descriptions :=
           [2; 3; 4; 5; 6; 1]%positive;
         ComposableNodeContainer.output := "screen" |} ].
Proof. vm_compute. reflexivity. Qed.

(** An attribute assignment or a deletion does change the heap: after the
    same run, renaming object 1 or deleting it is seen by the next read.
    The script holds no such step (C8). *)
Example descriptor_events_act :
  let h := launch_handler (static_harness "/r2b") in
  let w1 := snd (exec h (launch_setup "" 0%Z) empty_world) in
  let rename d :=
    {| ComposableNode.name := "Renamed";
       ComposableNode.namespace := ComposableNode.namespace d;
       ComposableNode.package := ComposableNode.package d;
       ComposableNode.plugin := ComposableNode.plugin d;
       ComposableNode.parameters := ComposableNode.parameters d;
       ComposableNode.remappings := ComposableNode.remappings d;
       ComposableNode.extra_arguments := ComposableNode.extra_arguments d |} in
  ComposableNode.name <$> heap w1 !! 1%positive = Some "NvbloxNode" /\
  ComposableNode.name <$>
    heap (snd (exec h (call (OnDescriptor (SetAttribute 1%positive rename))) w1))
      !! 1%positive = Some "Renamed" /\
  heap (snd (exec h (call (OnDescriptor (DeleteDescriptor 1%positive))) w1))
    !! 1%positive = None.
Proof. vm_compute. repeat split. Qed.

(** * The tables *)

(** C2: the configuration record holds exactly the declared fields with
    the declared literal values: the name, the data path, the TIMELINE
    mode, four options set to true, a buffer size of 0, five timeouts that
    are plain integers (20, 25, 30, 25, 35), and the monitor list; nothing
    else mentions a timeout. *)
Theorem config_declared_fields :
  List.map fst (config_kwargs config) =
    [ "benchmark_name"; "input_data_path"; "benchmark_mode";
      "enable_trial_buffer_preparation"; "load_data_in_real_time";
      "record_data_timeline"; "publish_tf_static_messages_in_set_data";
      "playback_message_buffer_size";
      "start_recording_service_timeout_sec";
      "start_recording_service_future_timeout_sec";
      "start_monitoring_service_timeout_sec";
      "play_messages_service_future_timeout_sec";
      "default_service_future_timeout_sec";
      "monitor_info_list" ] /\
  config_get "benchmark_name" config = Some (CStr "Isaac ROS NvbloxNode Benchmark") /\
  config_get "input_data_path" config = Some (CStr "datasets/r2b_dataset/r2b_hideaway") /\
  config_get "benchmark_mode" config = Some (CEnum "BenchmarkMode" "TIMELINE") /\
  List.map (fun k => config_get k config)
    [ "enable_trial_buffer_preparation"; "load_data_in_real_time";
      "record_data_timeline"; "publish_tf_static_messages_in_set_data" ] =
    [ Some (CBool true); Some (CBool true); Some (CBool true); Some (CBool true) ] /\
  config_get "playback_message_buffer_size" config = Some (CInt 0) /\
  List.filter (fun kv => mentions_timeout (fst kv)) (config_kwargs config) =
    [ ("start_recording_service_timeout_sec", CInt 20);
      ("start_recording_service_future_timeout_sec", CInt 25);
      ("start_monitoring_service_timeout_sec", CInt 30);
      ("play_messages_service_future_timeout_sec", CInt 25);
      ("default_service_future_timeout_sec", CInt 35) ] /\
  forallb (fun kv => is_integer (snd kv))
    (List.filter (fun kv => mentions_timeout (fst kv)) (config_kwargs config)) = true.
Proof. repeat split; vm_compute; reflexivity. Qed.

(** C4: the configuration registers exactly two monitor bindings; binding
    [i] pairs the trigger [start_monitoring] followed by [i] with one
    calculator, configured with the label only: [mesh] for 0, [map_slice]
    for 1. *)
Theorem monitor_bindings :
  exists l,
    config_get "monitor_info_list" config = Some (CMonitors l) /\
    length l = 2 /\
    List.map monitor_trigger l =
      List.map (fun i => "start_monitoring" +:+ str i) (seq 0 2) /\
    List.map monitor_calculators l =
      List.map
        (fun label => [ mkBasicPerformanceCalculator [ ("report_prefix", PStr label) ] ])
        [ "mesh"; "map_slice" ].
Proof. eexists. split; [vm_compute; reflexivity |]. repeat split. Qed.

(** C3: the remapping tables realise the pipeline.  The four outputs of
    DataLoaderNode are the buffer inputs 0 to 3 of PlaybackNode, the /tf
    output of VisualSlamNode is buffer input 4, the five playback outputs
    are what NvbloxNode consumes through its remappings plus /tf, and the
    monitors listen on NvbloxNode/mesh and NvbloxNode/map_slice. *)
Theorem static_pipeline_wiring (nd nv np nm0 nm1 nn : string) :
  bus_topics (data_loader_node nd) =
    [ "data_loader/depth"; "data_loader/depth/camera_info";
      "data_loader/left/rgb"; "data_loader/left/camera_info" ] /\
  physical_of [ "buffer/input0"; "buffer/input1"; "buffer/input2"; "buffer/input3" ]
    (playback_node np) = List.map Some (bus_topics (data_loader_node nd)) /\
  remap_get "/tf" (ComposableNode.remappings (visual_slam_node nv)) = Some "visual_slam/tf" /\
  remap_get "buffer/input4" (ComposableNode.remappings (playback_node np)) =
    remap_get "/tf" (ComposableNode.remappings (visual_slam_node nv)) /\
  physical_of [ "input0"; "input1"; "input2"; "input3"; "input4" ] (playback_node np) =
    List.map Some [ "depth"; "depth/camera_info"; "left/rgb"; "left/camera_info"; "/tf" ] /\
  physical_of [ "input0"; "input1"; "input2"; "input3"; "input4" ] (playback_node np) =
    List.map Some (bus_topics (nvblox_node nn) ++ [ "/tf" ]) /\
  ComposableNode.remappings (monitor_node0 nm0) = [ ("output", "NvbloxNode/mesh") ] /\
  ComposableNode.remappings (monitor_node1 nm1) = [ ("output", "NvbloxNode/map_slice") ].
Proof. repeat split. Qed.

(** C9: PlaybackNode pairs formats and channels one to one.  Its
    [data_formats] lists five message types and, for every index [N] from
    0 to 4, its remappings hold exactly one [buffer/inputN] entry and
    exactly one [inputN] entry; the ten entries are all of them. *)
Theorem playback_pairing (ns : string) (N : nat) :
  N < 5 ->
  (exists fmts,
      ComposableNode.parameters (playback_node ns) = [ [ ("data_formats", PStrList fmts) ] ] /\
      length fmts = 5 /\ is_Some (fmts !! N)) /\
  count_logical ("buffer/input" +:+ str N) (playback_node ns) = 1 /\
  count_logical ("input" +:+ str N) (playback_node ns) = 1 /\
  length (ComposableNode.remappings (playback_node ns)) = 2 * 5.
Proof.
  intros HN.
  assert (Hcases : N = 0 \/ N = 1 \/ N = 2 \/ N = 3 \/ N = 4) by lia.
  destruct Hcases as [-> | [-> | [-> | [-> | ->]]]];
    (split; [eexists; split; [reflexivity |]; split; [reflexivity | by eexists] |]);
    repeat split.
Qed.

Lemma playback_pairing_witness :
  3 < 5 /\
  ((exists fmts,
       ComposableNode.parameters (playback_node "/r2b") =
         [ [ ("data_formats", PStrList fmts) ] ] /\
       length fmts = 5 /\ is_Some (fmts !! 3)) /\
   count_logical "buffer/input3" (playback_node "/r2b") = 1 /\
   count_logical "input3" (playback_node "/r2b") = 1 /\
   length (ComposableNode.remappings (playback_node "/r2b")) = 10).
Proof. split; [lia | apply (playback_pairing "/r2b" 3); lia]. Defined.

(** * Matching remapping targets *)




(** * The run of [launch_setup] and of the hooks *)

Section Claims.
Context {Prefix Timeout LaunchDescription H : Type}.
Context (hn : Harness Prefix Timeout LaunchDescription H).

(** C1: for every pair of arguments, [launch_setup] returns a list of
    exactly one element, a container named [container] with executable
    [component_container_mt], whose descriptions are the six fixed
    descriptors DataLoaderNode, VisualSlamNode, PlaybackNode, MonitorNode0,
    MonitorNode1 and NvbloxNode in that order, each with its fixed
    parameter and remapping tables, written out below as the script has
    them (with package, plugin and extra arguments).  The harness is
    assumed to answer the namespace calls. *)
Theorem launch_setup_one_container (p : Prefix) (t : Timeout) (w : World H) :
  namespace_total hn ->
  exists c w' n0 n1 n2 n3 n4 n5,
    exec (launch_handler hn) (launch_setup p t) w = (Returned [c], w') /\
    ComposableNodeContainer.name c = "container" /\
    ComposableNodeContainer.executable c = "component_container_mt" /\
    length (ComposableNodeContainer.composable_node_descriptions c) = 6 /\
    graph_of w' c =
      [ data_loader_node n1; visual_slam_node n2; playback_node n3;
        monitor_node0 n4; monitor_node1 n5; nvblox_node n0 ] /\
    List.map ComposableNode.name (graph_of w' c) =
      [ "DataLoaderNode"; "VisualSlamNode"; "PlaybackNode";
        "MonitorNode0"; "MonitorNode1"; "NvbloxNode" ] /\
    List.map (fun d => (ComposableNode.package d, ComposableNode.plugin d)) (graph_of w' c) =
      [ ("ros2_benchmark", "ros2_benchmark::DataLoaderNode");
        ("isaac_ros_visual_slam", "isaac_ros::visual_slam::VisualSlamNode");
        ("isaac_ros_benchmark", "isaac_ros_benchmark::NitrosPlaybackNode");
        ("isaac_ros_benchmark", "isaac_ros_benchmark::NitrosMonitorNode");
        ("isaac_ros_benchmark", "isaac_ros_benchmark::NitrosMonitorNode");
        ("nvblox_ros", "nvblox::NvbloxNode") ] /\
    List.map ComposableNode.parameters (graph_of w' c) =
      [ [ [ ("publisher_period_ms", PInt 1) ] ];
        [ [ ("enable_rectified_pose", PBool true);
            ("denoise_input_images", PBool false);
            ("rectified_images", PBool true) ] ];
        [ [ ("data_formats",
             PStrList [ "sensor_msgs/msg/Image"; "sensor_msgs/msg/CameraInfo";
                        "sensor_msgs/msg/Image"; "sensor_msgs/msg/CameraInfo";
                        "tf2_msgs/msg/TFMessage" ]) ] ];
        [ [ ("monitor_data_format", PStr "nvblox_msgs/msg/Mesh");
            ("monitor_index", PInt 0) ] ];
        [ [ ("monitor_data_format", PStr "nvblox_msgs/msg/DistanceMapSlice");
            ("monitor_index", PInt 1) ] ];
        [ [ ("global_frame", PStr "odom");
            ("voxel_size", PFloat 0.10);
            ("slice_height", PFloat 0.75);
            ("min_height", PFloat 0.3);
            ("max_height", PFloat 1.0);
            ("esdf", PBool true);
            ("esdf_2d", PBool true);
            ("mesh", PBool true);
            ("distance_slice", PBool true);
            ("tsdf_integrator_max_integration_distance_m", PFloat 5.0);
            ("tsdf_integrator_truncation_distance_vox", PFloat 4.0);
            ("tsdf_integrator_max_weight", PFloat 20.0);
            ("esdf_integrator_min_weight", PFloat 2.0);
            ("esdf_integrator_max_distance_m", PFloat 2.0);
            ("esdf_integrator_min_site_distance_vox", PFloat 1.0);
            ("max_tsdf_update_hz", PFloat 0.0);
            ("max_color_update_hz", PFloat 5.0);
            ("max_mesh_update_hz", PFloat 0.0);
            ("max_esdf_update_hz", PFloat 0.0) ];
          [ ("use_sim_time", PBool false) ] ] ] /\
    List.map ComposableNode.remappings (graph_of w' c) =
      [ [ ("d455_1_depth_image", "data_loader/depth");
          ("d455_1_depth_camera_info", "data_loader/depth/camera_info");
          ("d455_1_rgb_image", "data_loader/left/rgb");
          ("d455_1_rgb_camera_info", "data_loader/left/camera_info") ];
        [ ("stereo_camera/left/image", "hawk_0_left_rgb_image");
          ("stereo_camera/left/camera_info", "hawk_0_left_rgb_camera_info");
          ("stereo_camera/right/image", "hawk_0_right_rgb_image");
          ("stereo_camera/right/camera_info", "hawk_0_right_rgb_camera_info");
          ("/tf", "visual_slam/tf") ];
        [ ("buffer/input0", "data_loader/depth");
          ("input0", "depth");
          ("buffer/input1", "data_loader/depth/camera_info");
          ("input1", "depth/camera_info");
          ("buffer/input2", "data_loader/left/rgb");
          ("input2", "left/rgb");
          ("buffer/input3", "data_loader/left/camera_info");
          ("input3", "left/camera_info");
          ("buffer/input4", "visual_slam/tf");
          ("input4", "/tf") ];
        [ ("output", "NvbloxNode/mesh") ];
        [ ("output", "NvbloxNode/map_slice") ];
        [ ("depth/image", "depth");
          ("depth/camera_info", "depth/camera_info");
          ("color/image", "left/rgb");
          ("color/camera_info", "left/camera_info") ] ] /\
    List.map ComposableNode.extra_arguments (graph_of w' c) =
      [ None; Some [ [ ("use_intra_process_comms", PBool false) ] ];
        None; None; None; None ] /\
    (forall ns, List.map tables (graph_of w' c) = List.map tables (fixed_descriptors ns)).
Proof.
  intros Htot.
  destruct (launch_setup_returns hn p t w Htot)
    as (c & w' & n0 & n1 & n2 & n3 & n4 & n5
        & Hexec & Hname & Hexe & _ & _ & Hlen & Hgraph & _).
  exists c, w', n0, n1, n2, n3, n4, n5.
  rewrite Hgraph. repeat split; try done.
Qed.



(** C7: no operation of the script raises or handles an error.  The
    bodies of [launch_setup], of the two hooks and of the class hold no
    [raise] and no try/except; [launch_setup] returns its container unless
    the harness itself raised on a namespace call, and then ends with that
    exception; building [config] returns; what the script gives the
    framework for failure detection is the five integer timeouts of the
    configuration record: no node parameter mentions a timeout, and the
    container's [sigterm_timeout] is the caller's own argument. *)
Theorem no_error_handling (p : Prefix) (t : Timeout) (w : World H) :
  (error_free (launch_setup p t) /\
   error_free (@generate_test_description Prefix Timeout LaunchDescription) /\
   error_free (@test_benchmark Prefix Timeout LaunchDescription) /\
   error_free (@class_body launchE)) /\
  ((exists c w',
       exec (launch_handler hn) (launch_setup p t) w = (Returned [c], w') /\
       ComposableNodeContainer.sigterm_timeout c = t) \/
   (exists ex w',
       namespace_raises hn ex /\
       exec (launch_handler hn) (launch_setup p t) w = (Raised ex, w'))) /\
  exec (hook_handler hn) class_body w = (Returned config, w) /\
  List.map fst (List.filter (fun kv => mentions_timeout (fst kv)) (config_kwargs config)) =
    [ "start_recording_service_timeout_sec";
      "start_recording_service_future_timeout_sec";
      "start_monitoring_service_timeout_sec";
      "play_messages_service_future_timeout_sec";
      "default_service_future_timeout_sec" ] /\
  forallb (fun kv => is_integer (snd kv))
    (List.filter (fun kv => mentions_timeout (fst kv)) (config_kwargs config)) = true /\
  (forall ns,
      List.filter mentions_timeout
        (concat (List.map parameter_keys (fixed_descriptors ns))) = []).
Proof.
  split.
  { split; [apply launch_setup_error_free |].
    split; [apply error_free_call |].
    split; [apply error_free_call | constructor]. }
  split.
  { destruct (launch_setup_runs hn p t w)
      as [(n0 & n1 & n2 & n3 & n4 & n5 & n6 & l0 & l1 & l2 & l3 & l4 & l5 & w'
           & Hexec & _) | Hraise]; [left | by right].
    eexists _, w'. split; [exact Hexec | reflexivity]. }
  repeat split.
Qed.

(** C8: descriptors are immutable once constructed.  None of the bodies
    of the script ([launch_setup], the two hooks, the class body) holds an
    attribute assignment to, or a deletion of, a descriptor; so the six
    descriptors [launch_setup] builds are not changed or removed by
    anything the script does afterwards (the hooks, the class body, or
    [launch_setup] again, in any order and number): the container still
    refers to six descriptors with the same name, package, plugin,
    parameters, remappings and extra arguments, and every descriptor alive
    stays what it is. *)
Theorem descriptors_never_mutated (p : Prefix) (t : Timeout) (w : World H) :
  namespace_total hn ->
  (mutation_free launch_mutates (launch_setup p t) /\
   mutation_free hook_mutates (@generate_test_description Prefix Timeout LaunchDescription) /\
   mutation_free hook_mutates (@test_benchmark Prefix Timeout LaunchDescription) /\
   mutation_free hook_mutates (@class_body (hookE Prefix Timeout LaunchDescription))) /\
  exists c w1,
    exec (launch_handler hn) (launch_setup p t) w = (Returned [c], w1) /\
    length (graph_of w1 c) = 6 /\
    (forall ops : list (operation Prefix Timeout),
        graph_of (perform_all hn ops w1) c = graph_of w1 c) /\
    (forall (ops : list (operation Prefix Timeout)) l d,
        heap w1 !! l = Some d -> heap (perform_all hn ops w1) !! l = Some d).
Proof.
  intros Htot.
  split.
  { split; [apply launch_setup_mutation_free |].
    split; [by apply mutation_free_call |].
    split; [by apply mutation_free_call | constructor]. }
  destruct (launch_setup_runs hn p t w)
    as [(n0 & n1 & n2 & n3 & n4 & n5 & n6 & l0 & l1 & l2 & l3 & l4 & l5 & w1
         & Hexec & _ & L0 & L1 & L2 & L3 & L4 & L5 & _)
       | (ex & w' & Hex & _)];
    [| by destruct (namespace_total_not_raises hn ex Htot)].
  eexists _, w1. split; [exact Hexec |].
  assert (Hg : forall w2 : World H,
             (forall l d, heap w1 !! l = Some d -> heap w2 !! l = Some d) ->
             graph_of w2
               {| ComposableNodeContainer.name := "container";
                  ComposableNodeContainer.namespace := n6;
                  ComposableNodeContainer.package := "rclcpp_components";
                  ComposableNodeContainer.executable := "component_container_mt";
                  ComposableNodeContainer.prefix := p;
                  ComposableNodeContainer.sigterm_timeout := t;
                  ComposableNodeContainer.composable_node_descriptions :=
                    [l1; l2; l3; l4; l5; l0];
                  ComposableNodeContainer.output := "screen" |} =
             [ data_loader_node n1; visual_slam_node n2; playback_node n3;
               monitor_node0 n4; monitor_node1 n5; nvblox_node n0 ]).
  { intros w2 Hw2. unfold graph_of. simpl.
    by rewrite (Hw2 _ _ L0), (Hw2 _ _ L1), (Hw2 _ _ L2), (Hw2 _ _ L3),
      (Hw2 _ _ L4), (Hw2 _ _ L5). }
  split; [by rewrite (Hg w1) |].
  split.
  - intros ops. rewrite (Hg w1) by done.
    apply Hg. intros l d. apply perform_all_frame.
  - intros ops l d. apply perform_all_frame.
Qed.

(** C10: the six descriptors and the container are all built with the
    value of [TestIsaacROSNvbloxNode.generate_namespace()]: seven calls,
    and, that class method being a constant [ns], one shared namespace. *)
Theorem single_namespace (ns : string) (p : Prefix) (t : Timeout) (w : World H) :
  namespace_constant hn ns ->
  exists c w',
    exec (launch_handler hn) (launch_setup p t) w = (Returned [c], w') /\
    ComposableNodeContainer.namespace c = ns /\
    length (graph_of w' c) = 6 /\
    Forall (fun d => ComposableNode.namespace d = ns) (graph_of w' c) /\
    calls w' = calls w ++ replicate 7 CallGenerateNamespace.
Proof.
  intros Hc.
  destruct (launch_setup_returns hn p t w (namespace_constant_total hn ns Hc))
    as (c & w' & n0 & n1 & n2 & n3 & n4 & n5
        & Hexec & _ & _ & _ & _ & _ & Hgraph & Hans & _ & Hcalls).
  exists c, w'. split; [exact Hexec |].
  assert (Hall : Forall (fun n => n = ns)
                   [ ComposableNodeContainer.namespace c; n0; n1; n2; n3; n4; n5 ]).
  { eapply Forall_impl; [exact Hans |]. intros n. apply namespace_constant_answered, Hc. }
  inversion_clear Hall as [| ? ? Hc6 Hall0].
  inversion_clear Hall0 as [| ? ? H0 Hall1].
  inversion_clear Hall1 as [| ? ? H1 Hall2].
  inversion_clear Hall2 as [| ? ? H2 Hall3].
  inversion_clear Hall3 as [| ? ? H3 Hall4].
  inversion_clear Hall4 as [| ? ? H4 Hall5].
  inversion_clear Hall5 as [| ? ? H5 _].
  split; [exact Hc6 |]. rewrite Hgraph.
  split; [reflexivity |]. split; [| exact Hcalls].
  subst. by repeat constructor.
Qed.
End Claims.

(** Who is tied to which topic.  The outputs of DataLoaderNode, the /tf
    output of VisualSlamNode and the playback outputs NvbloxNode reads are
    each named by two descriptors; the camera topics VisualSlamNode reads,
    the /tf playback output and the two NvbloxNode outputs the monitors
    listen on are named by one descriptor only, their other end being a
    topic name the node at that end uses as it is. *)
Lemma topic_declarers (ns : string) :
  List.map (declared_by (fixed_descriptors ns))
    [ "data_loader/depth"; "data_loader/depth/camera_info";
      "data_loader/left/rgb"; "data_loader/left/camera_info";
      "visual_slam/tf";
      "depth"; "depth/camera_info"; "left/rgb"; "left/camera_info";
      "hawk_0_left_rgb_image"; "hawk_0_left_rgb_camera_info";
      "hawk_0_right_rgb_image"; "hawk_0_right_rgb_camera_info";
      "/tf"; "NvbloxNode/mesh"; "NvbloxNode/map_slice" ] =
    [ [ "DataLoaderNode"; "PlaybackNode" ]; [ "DataLoaderNode"; "PlaybackNode" ];
      [ "DataLoaderNode"; "PlaybackNode" ]; [ "DataLoaderNode"; "PlaybackNode" ];
      [ "VisualSlamNode"; "PlaybackNode" ];
      [ "PlaybackNode"; "NvbloxNode" ]; [ "PlaybackNode"; "NvbloxNode" ];
      [ "PlaybackNode"; "NvbloxNode" ]; [ "PlaybackNode"; "NvbloxNode" ];
      [ "VisualSlamNode" ]; [ "VisualSlamNode" ];
      [ "VisualSlamNode" ]; [ "VisualSlamNode" ];
      [ "PlaybackNode" ]; [ "MonitorNode0" ]; [ "MonitorNode1" ] ].
Proof. reflexivity. Qed.

(** * The claims at a harness that answers [/r2b] *)

Lemma launch_setup_one_container_witness :
  namespace_total (static_harness "/r2b") /\
  (exists c w' n0 n1 n2 n3 n4 n5,
      exec (launch_handler (static_harness "/r2b")) (launch_setup "" 0%Z) empty_world =
        (Returned [c], w') /\
      ComposableNodeContainer.name c = "container" /\
      ComposableNodeContainer.executable c = "component_container_mt" /\
      length (ComposableNodeContainer.composable_node_descriptions c) = 6 /\
      graph_of w' c =
        [ data_loader_node n1; visual_slam_node n2; playback_node n3;
          monitor_node0 n4; monitor_node1 n5; nvblox_node n0 ] /\
      List.map ComposableNode.name (graph_of w' c) =
        [ "DataLoaderNode"; "VisualSlamNode"; "PlaybackNode";
          "MonitorNode0"; "MonitorNode1"; "NvbloxNode" ] /\
      List.map (fun d => (ComposableNode.package d, ComposableNode.plugin d)) (graph_of w' c) =
        [ ("ros2_benchmark", "ros2_benchmark::DataLoaderNode");
          ("isaac_ros_visual_slam", "isaac_ros::visual_slam::VisualSlamNode");
          ("isaac_ros_benchmark", "isaac_ros_benchmark::NitrosPlaybackNode");
          ("isaac_ros_benchmark", "isaac_ros_benchmark::NitrosMonitorNode");
          ("isaac_ros_benchmark", "isaac_ros_benchmark::NitrosMonitorNode");
          ("nvblox_ros", "nvblox::NvbloxNode") ] /\
      List.map ComposableNode.parameters (graph_of w' c) =
        [ [ [ ("publisher_period_ms", PInt 1) ] ];
          [ [ ("enable_rectified_pose", PBool true);
              ("denoise_input_images", PBool false);
              ("rectified_images", PBool true) ] ];
          [ [ ("data_formats",
               PStrList [ "sensor_msgs/msg/Image"; "sensor_msgs/msg/CameraInfo";
                          "sensor_msgs/msg/Image"; "sensor_msgs/msg/CameraInfo";
                          "tf2_msgs/msg/TFMessage" ]) ] ];
          [ [ ("monitor_data_format", PStr "nvblox_msgs/msg/Mesh");
              ("monitor_index", PInt 0) ] ];
          [ [ ("monitor_data_format", PStr "nvblox_msgs/msg/DistanceMapSlice");
              ("monitor_index", PInt 1) ] ];
          [ [ ("global_frame", PStr "odom");
              ("voxel_size", PFloat 0.10);
              ("slice_height", PFloat 0.75);
              ("min_height", PFloat 0.3);
              ("max_height", PFloat 1.0);
              ("esdf", PBool true);
              ("esdf_2d", PBool true);
              ("mesh", PBool true);
              ("distance_slice", PBool true);
              ("tsdf_integrator_max_integration_distance_m", PFloat 5.0);
              ("tsdf_integrator_truncation_distance_vox", PFloat 4.0);
              ("tsdf_integrator_max_weight", PFloat 20.0);
              ("esdf_integrator_min_weight", PFloat 2.0);
              ("esdf_integrator_max_distance_m", PFloat 2.0);
              ("esdf_integrator_min_site_distance_vox", PFloat 1.0);
              ("max_tsdf_update_hz", PFloat 0.0);
              ("max_color_update_hz", PFloat 5.0);
              ("max_mesh_update_hz", PFloat 0.0);
              ("max_esdf_update_hz", PFloat 0.0) ];
            [ ("use_sim_time", PBool false) ] ] ] /\
      List.map ComposableNode.remappings (graph_of w' c) =
        [ [ ("d455_1_depth_image", "data_loader/depth");
            ("d455_1_depth_camera_info", "data_loader/depth/camera_info");
            ("d455_1_rgb_image", "data_loader/left/rgb");
            ("d455_1_rgb_camera_info", "data_loader/left/camera_info") ];
          [ ("stereo_camera/left/image", "hawk_0_left_rgb_image");
            ("stereo_camera/left/camera_info", "hawk_0_left_rgb_camera_info");
            ("stereo_camera/right/image", "hawk_0_right_rgb_image");
            ("stereo_camera/right/camera_info", "hawk_0_right_rgb_camera_info");
            ("/tf", "visual_slam/tf") ];
          [ ("buffer/input0", "data_loader/depth");
            ("input0", "depth");
            ("buffer/input1", "data_loader/depth/camera_info");
            ("input1", "depth/camera_info");
            ("buffer/input2", "data_loader/left/rgb");
            ("input2", "left/rgb");
            ("buffer/input3", "data_loader/left/camera_info");
            ("input3", "left/camera_info");
            ("buffer/input4", "visual_slam/tf");
            ("input4", "/tf") ];
          [ ("output", "NvbloxNode/mesh") ];
          [ ("output", "NvbloxNode/map_slice") ];
          [ ("depth/image", "depth");
            ("depth/camera_info", "depth/camera_info");
            ("color/image", "left/rgb");
            ("color/camera_info", "left/camera_info") ] ] /\
      List.map ComposableNode.extra_arguments (graph_of w' c) =
        [ None; Some [ [ ("use_intra_process_comms", PBool false) ] ];
          None; None; None; None ] /\
      (forall ns, List.map tables (graph_of w' c) = List.map tables (fixed_descriptors ns))).
Proof.
  assert (Htot : namespace_total (static_harness "/r2b")).
  { intros h. exists "/r2b", h. reflexivity. }
  split; [exact Htot |].
  apply (launch_setup_one_container (static_harness "/r2b") "" 0%Z empty_world Htot).
Defined.



Lemma descriptors_never_mutated_witness :
  namespace_total (static_harness "/r2b") /\
  (mutation_free launch_mutates (launch_setup "" 0%Z) /\
   mutation_free hook_mutates (@generate_test_description string Z unit) /\
   mutation_free hook_mutates (@test_benchmark string Z unit) /\
   mutation_free hook_mutates (@class_body (hookE string Z unit))) /\
  (exists c w1,
      exec (launch_handler (static_harness "/r2b")) (launch_setup "" 0%Z) empty_world =
        (Returned [c], w1) /\
      length (graph_of w1 c) = 6 /\
      (forall ops : list (operation string Z),
          graph_of (perform_all (static_harness "/r2b") ops w1) c = graph_of w1 c) /\
      (forall (ops : list (operation string Z)) l d,
          heap w1 !! l = Some d ->
          heap (perform_all (static_harness "/r2b") ops w1) !! l = Some d)).
Proof.
  assert (Htot : namespace_total (static_harness "/r2b")).
  { intros h. exists "/r2b", h. reflexivity. }
  split; [exact Htot |].
  apply (descriptors_never_mutated (static_harness "/r2b") "" 0%Z empty_world Htot).
Defined.

Lemma single_namespace_witness :
  namespace_constant (static_harness "/r2b") "/r2b" /\
  (exists c w',
      exec (launch_handler (static_harness "/r2b")) (launch_setup "" 0%Z) empty_world =
        (Returned [c], w') /\
      ComposableNodeContainer.namespace c = "/r2b" /\
      length (graph_of w' c) = 6 /\
      Forall (fun d => ComposableNode.namespace d = "/r2b") (graph_of w' c) /\
      calls w' = calls empty_world ++ replicate 7 CallGenerateNamespace).
Proof.
  assert (Hc : namespace_constant (static_harness "/r2b") "/r2b").
  { intros h. reflexivity. }
  split; [exact Hc |].
  apply (single_namespace (static_harness "/r2b") "/r2b" "" 0%Z empty_world Hc).
Defined.

(** * More of [launch_setup] *)

Section LaunchSetupMore.
Context {Prefix Timeout LaunchDescription H : Type}.
Context (hn : Harness Prefix Timeout LaunchDescription H).

(** A namespace call, with the world it leaves in both outcomes. *)
Lemma exec_namespace_exact {R} (k : string -> Prog launchE R) (w : World H) :
  (exists n w1,
      heap w1 = heap w /\
      calls w1 = calls w ++ [CallGenerateNamespace] /\
      exec (launch_handler hn) (bind generate_namespace k) w =
      exec (launch_handler hn) (k n) w1) \/
  (exists ex w1,
      namespace_raises hn ex /\
      calls w1 = calls w ++ [CallGenerateNamespace] /\
      exec (launch_handler hn) (bind generate_namespace k) w = (Raised ex, w1)).
Proof.
  destruct (generate_namespace_impl hn (harness_state w)) as [[n | ex] h'] eqn:Hn.
  - left. exists n, (mkWorld (heap w) h' (calls w ++ [CallGenerateNamespace])).
    do 2 (split; [done |]).
    simpl. unfold harness_answer. by rewrite Hn.
  - right. exists ex, (mkWorld (heap w) h' (calls w ++ [CallGenerateNamespace])).
    split; [by exists (harness_state w), h' |]. split; [done |].
    simpl. unfold harness_answer. by rewrite Hn.
Qed.

(** A constructor call, with the heap it leaves: the old one and one
    object at a reference that was free. *)
Lemma exec_stage_exact {R} (mk : string -> ComposableNode.t) (k : loc -> Prog launchE R)
    (w : World H) :
  (exists n l w1,
      (l ∉ dom (heap w)) /\ heap w1 = <[l := mk n]> (heap w) /\
      calls w1 = calls w ++ [CallGenerateNamespace] /\
      exec (launch_handler hn)
        (bind generate_namespace (fun ns => bind (call (NewComposableNode (mk ns))) k)) w =
      exec (launch_handler hn) (k l) w1) \/
  (exists ex w1,
      namespace_raises hn ex /\
      calls w1 = calls w ++ [CallGenerateNamespace] /\
      exec (launch_handler hn)
        (bind generate_namespace (fun ns => bind (call (NewComposableNode (mk ns))) k)) w =
      (Raised ex, w1)).
Proof.
  destruct (exec_namespace_exact (fun ns => bind (call (NewComposableNode (mk ns))) k) w)
    as [(n & w0 & Hheap & Hcalls & ->) | Hraise]; [left | by right].
  exists n, (fresh (dom (heap w))),
    (mkWorld (<[fresh (dom (heap w)) := mk n]> (heap w)) (harness_state w0) (calls w0)).
  split; [apply is_fresh |]. split; [done |]. split; [done |].
  simpl. by rewrite Hheap.
Qed.

Ltac chain_calls :=
  repeat match goal with
         | Hc : calls ?a = _ |- context [calls ?a] => rewrite Hc
         end;
  simpl; rewrite <- ?app_assoc; reflexivity.

Ltac raised_after k :=
  exists k; eexists _, _;
  split; [eassumption |]; split; [reflexivity |]; split; [lia |]; chain_calls.

Ltac raised :=
  right;
  first [ raised_after 1 | raised_after 2 | raised_after 3 | raised_after 4
        | raised_after 5 | raised_after 6 | raised_after 7 ].

Tactic Notation "stage_exact" constr(mk) "as" simple_intropattern(pat) :=
  match goal with
  | |- context [exec _ (bind generate_namespace
                          (fun ns => bind (call (NewComposableNode (@?f ns))) ?k)) ?w] =>
      destruct (exec_stage_exact mk k w) as [pat | (?ex & ?w1 & ? & ? & ->)];
      [| raised]
  end.

(** The run of [launch_setup] with its exact heap and call log.  If it
    returns, the heap is the old one plus the six descriptors at references
    that were free and differ from each other, and seven namespace calls
    were logged.  If it raises, the harness raised on the [k]-th namespace
    call, [k] from 1 to 7, and that call is the last one logged. *)
Lemma launch_setup_trace (p : Prefix) (t : Timeout) (w : World H) :
  (exists n0 n1 n2 n3 n4 n5 n6 l0 l1 l2 l3 l4 l5 w',
      exec (launch_handler hn) (launch_setup p t) w =
        (Returned
           [ {| ComposableNodeContainer.name := "container";
                ComposableNodeContainer.namespace := n6;
                ComposableNodeContainer.package := "rclcpp_components";
                ComposableNodeContainer.executable := "component_container_mt";
                ComposableNodeContainer.prefix := p;
                ComposableNodeContainer.sigterm_timeout := t;
                ComposableNodeContainer.composable_node_descriptions :=
                  [l1; l2; l3; l4; l5; l0];
                ComposableNodeContainer.output := "screen" |} ], w') /\
      heap w' =
        <[l5 := monitor_node1 n5]> (<[l4 := monitor_node0 n4]>
          (<[l3 := playback_node n3]> (<[l2 := visual_slam_node n2]>
            (<[l1 := data_loader_node n1]> (<[l0 := nvblox_node n0]> (heap w)))))) /\
      NoDup [l1; l2; l3; l4; l5; l0] /\
      Forall (fun l => l ∉ dom (heap w)) [l1; l2; l3; l4; l5; l0] /\
      calls w' = calls w ++ replicate 7 CallGenerateNamespace) \/
  (exists k ex w',
      namespace_raises hn ex /\
      exec (launch_handler hn) (launch_setup p t) w = (Raised ex, w') /\
      1 <= k <= 7 /\
      calls w' = calls w ++ replicate k CallGenerateNamespace).
Proof.
  unfold launch_setup.
  stage_exact nvblox_node as (n0 & l0 & w0 & F0 & Hh0 & C0 & ->).
  stage_exact data_loader_node as (n1 & l1 & w1 & F1 & Hh1 & C1 & ->).
  stage_exact visual_slam_node as (n2 & l2 & w2 & F2 & Hh2 & C2 & ->).
  stage_exact playback_node as (n3 & l3 & w3 & F3 & Hh3 & C3 & ->).
  stage_exact monitor_node0 as (n4 & l4 & w4 & F4 & Hh4 & C4 & ->).
  stage_exact monitor_node1 as (n5 & l5 & w5 & F5 & Hh5 & C5 & ->).
  match goal with
  | |- context [exec _ (bind generate_namespace ?k) ?w5] =>
      destruct (exec_namespace_exact k w5)
        as [(n6 & w6 & Hh6 & C6 & ->) | (ex & w6 & Hex & C6 & ->)];
      [left | raised]
  end.
  exists n0, n1, n2, n3, n4, n5, n6, l0, l1, l2, l3, l4, l5, w6.
  split; [reflexivity |].
  split; [by rewrite Hh6, Hh5, Hh4, Hh3, Hh2, Hh1, Hh0 |].
  rewrite Hh0 in F1. rewrite Hh1, Hh0 in F2. rewrite Hh2, Hh1, Hh0 in F3.
  rewrite Hh3, Hh2, Hh1, Hh0 in F4. rewrite Hh4, Hh3, Hh2, Hh1, Hh0 in F5.
  repeat rewrite dom_insert_L in F1. repeat rewrite dom_insert_L in F2.
  repeat rewrite dom_insert_L in F3. repeat rewrite dom_insert_L in F4.
  repeat rewrite dom_insert_L in F5.
  repeat rewrite not_elem_of_union in F1. repeat rewrite not_elem_of_union in F2.
  repeat rewrite not_elem_of_union in F3. repeat rewrite not_elem_of_union in F4.
  repeat rewrite not_elem_of_union in F5.
  repeat rewrite not_elem_of_singleton in F1.
  repeat rewrite not_elem_of_singleton in F2. repeat rewrite not_elem_of_singleton in F3.
  repeat rewrite not_elem_of_singleton in F4. repeat rewrite not_elem_of_singleton in F5.
  split; [| split; [| chain_calls]].
  - rewrite !NoDup_cons, !not_elem_of_cons.
    intuition (try congruence; try (by eapply not_elem_of_nil); auto using NoDup_nil_2).
  - repeat constructor; intuition.
Qed.
End LaunchSetupMore.

(** * Reading the container back *)

Section Graph.
Context {Prefix Timeout H : Type}.

Lemma graph_of_lookup (w : World H) (c : ComposableNodeContainer.t Prefix Timeout)
    (ds : list ComposableNode.t) :
  Forall2 (fun l d => heap w !! l = Some d)
    (ComposableNodeContainer.composable_node_descriptions c) ds ->
  graph_of w c = ds.
Proof.
  unfold graph_of. induction 1 as [| l d ls ds Hl _ IH]; [done |].
  cbn. rewrite Hl. cbn. f_equal. exact IH.
Qed.
End Graph.

Section LaunchSetupObjects.
Context {Prefix Timeout LaunchDescription H : Type}.
Context (hn : Harness Prefix Timeout LaunchDescription H).


(** A returning run in terms of references: the six are distinct, were
    free, hold the six descriptors, and the heap changed nowhere else. *)
Lemma launch_setup_objects (p : Prefix) (t : Timeout) (w : World H) :
  namespace_total hn ->
  exists c w' ds,
    exec (launch_handler hn) (launch_setup p t) w = (Returned [c], w') /\
    length ds = 6 /\
    Forall2 (fun l d => heap w' !! l = Some d)
      (ComposableNodeContainer.composable_node_descriptions c) ds /\
    NoDup (ComposableNodeContainer.composable_node_descriptions c) /\
    Forall (fun l => l ∉ dom (heap w))
      (ComposableNodeContainer.composable_node_descriptions c) /\
    dom (heap w') =
      dom (heap w) ∪ list_to_set (ComposableNodeContainer.composable_node_descriptions c) /\
    (forall l, l ∉ ComposableNodeContainer.composable_node_descriptions c ->
               heap w' !! l = heap w !! l).
Proof.
  intros Htot.
  destruct (launch_setup_trace hn p t w)
    as [(n0 & n1 & n2 & n3 & n4 & n5 & n6 & l0 & l1 & l2 & l3 & l4 & l5 & w'
         & Hexec & Hheap & Hnd & Hfree & _)
       | (k & ex & w' & Hex & _)];
    [| by destruct (namespace_total_not_raises hn ex Htot)].
  eexists _, w',
    [ data_loader_node n1; visual_slam_node n2; playback_node n3;
      monitor_node0 n4; monitor_node1 n5; nvblox_node n0 ].
  split; [exact Hexec |]. split; [reflexivity |]. simpl.
  pose proof Hnd as Hnd'.
  rewrite !NoDup_cons, !not_elem_of_cons in Hnd'. destruct_and!.
  split.
  { rewrite Hheap.
    repeat constructor;
      repeat (first [ by rewrite lookup_insert_eq
                    | rewrite lookup_insert_ne by congruence ]). }
  split; [exact Hnd |]. split; [exact Hfree |].
  split.
  { rewrite Hheap. repeat rewrite dom_insert_L.
    repeat rewrite list_to_set_cons. rewrite ?list_to_set_nil.
    apply set_eq. intros x.
    repeat rewrite elem_of_union. repeat rewrite elem_of_singleton.
    rewrite elem_of_empty. tauto. }
  intros l Hl. rewrite !not_elem_of_cons in Hl. destruct_and!. rewrite Hheap.
  repeat rewrite lookup_insert_ne by congruence. done.
Qed.
End LaunchSetupObjects.

(** * Counting calls *)

Lemma count_call_app (c : harness_call) (l1 l2 : list harness_call) :
  count_call c (l1 ++ l2) = count_call c l1 + count_call c l2.
Proof. unfold count_call. by rewrite List.filter_app, length_app. Qed.

Lemma count_call_namespace (c : harness_call) (k : nat) :
  harness_call_eqb c CallGenerateNamespace = false ->
  count_call c (replicate k CallGenerateNamespace) = 0.
Proof.
  intros Hc. unfold count_call.
  induction k as [| k IH]; simpl; [done |]. by rewrite Hc.
Qed.

(** * Beyond the claims: the objects and the calls of a launch *)

Section LaunchSetupExtras.
Context {Prefix Timeout LaunchDescription H : Type}.
Context (hn : Harness Prefix Timeout LaunchDescription H).

(** X2: a returning [launch_setup] creates exactly six objects.  The six
    references of the container differ from each other, none was in use
    before the call, and afterwards the heap holds what it held before plus
    these six: every other reference reads as before. *)
Theorem launch_setup_six_new_objects (p : Prefix) (t : Timeout) (w : World H) :
  namespace_total hn ->
  exists c w',
    exec (launch_handler hn) (launch_setup p t) w = (Returned [c], w') /\
    length (ComposableNodeContainer.composable_node_descriptions c) = 6 /\
    NoDup (ComposableNodeContainer.composable_node_descriptions c) /\
    Forall (fun l => heap w !! l = None)
      (ComposableNodeContainer.composable_node_descriptions c) /\
    Forall (fun l => is_Some (heap w' !! l))
      (ComposableNodeContainer.composable_node_descriptions c) /\
    dom (heap w') =
      dom (heap w) ∪ list_to_set (ComposableNodeContainer.composable_node_descriptions c) /\
    (forall l, l ∉ ComposableNodeContainer.composable_node_descriptions c ->
               heap w' !! l = heap w !! l).
Proof.
  intros Htot.
  destruct (launch_setup_objects hn p t w Htot)
    as (c & w' & ds & Hexec & Hlen & Hlook & Hnd & Hfree & Hdom & Hrest).
  exists c, w'. split; [exact Hexec |].
  split; [by rewrite (Forall2_length _ _ _ Hlook) |].
  split; [exact Hnd |].
  split; [eapply Forall_impl; [exact Hfree |]; intros l; apply not_elem_of_dom |].
  split; [| by split].
  clear -Hlook. induction Hlook as [| l d ls ds Hl _ IH]; constructor; [by exists d | exact IH].
Qed.

(** X3: two launches share no descriptor.  After [launch_setup] has run
    twice, the twelve references of the two containers are all different,
    and the first container still reads the six descriptors it read after
    the first run. *)
Theorem launches_share_no_descriptor
    (p1 p2 : Prefix) (t1 t2 : Timeout) (w : World H) :
  namespace_total hn ->
  exists c1 w1 c2 w2,
    exec (launch_handler hn) (launch_setup p1 t1) w = (Returned [c1], w1) /\
    exec (launch_handler hn) (launch_setup p2 t2) w1 = (Returned [c2], w2) /\
    NoDup (ComposableNodeContainer.composable_node_descriptions c1 ++
           ComposableNodeContainer.composable_node_descriptions c2) /\
    graph_of w2 c1 = graph_of w1 c1 /\
    length (graph_of w2 c1) = 6 /\
    length (graph_of w2 c2) = 6.
Proof.
  intros Htot.
  destruct (launch_setup_objects hn p1 t1 w Htot)
    as (c1 & w1 & ds1 & Hexec1 & Hlen1 & Hlook1 & Hnd1 & _ & Hdom1 & _).
  destruct (launch_setup_objects hn p2 t2 w1 Htot)
    as (c2 & w2 & ds2 & Hexec2 & Hlen2 & Hlook2 & Hnd2 & Hfree2 & _ & _).
  exists c1, w1, c2, w2. split; [exact Hexec1 |]. split; [exact Hexec2 |].
  assert (Hlook12 : Forall2 (fun l d => heap w2 !! l = Some d)
                      (ComposableNodeContainer.composable_node_descriptions c1) ds1).
  { eapply Forall2_impl; [exact Hlook1 |]. intros l d Hl.
    pose proof (exec_launch_frame hn (launch_setup p2 t2) w1 l d
                  (launch_setup_mutation_free p2 t2) Hl) as Hf.
    by rewrite Hexec2 in Hf. }
  split.
  { apply NoDup_app. split; [exact Hnd1 |]. split; [| exact Hnd2].
    intros l Hl1 Hl2.
    rewrite Forall_forall in Hfree2. apply (Hfree2 l Hl2).
    rewrite Hdom1, elem_of_union, elem_of_list_to_set. by right. }
  rewrite (graph_of_lookup w2 c1 ds1 Hlook12), (graph_of_lookup w1 c1 ds1 Hlook1),
    (graph_of_lookup w2 c2 ds2 Hlook2).
  by repeat split.
Qed.


Lemma perform_count (c : harness_call) (op : operation Prefix Timeout) (w : World H) :
  harness_call_eqb c CallGenerateNamespace = false ->
  count_call c (calls (perform hn w op)) = count_call c (calls w) + count_hook c [op].
Proof.
  intros Hc. destruct op as [p t | | |]; unfold perform.
  - destruct (launch_setup_trace hn p t w)
      as [(n0 & n1 & n2 & n3 & n4 & n5 & n6 & l0 & l1 & l2 & l3 & l4 & l5 & w'
           & -> & _ & _ & _ & Hcalls)
         | (k & ex & w' & _ & -> & _ & Hcalls)];
      simpl; rewrite Hcalls, count_call_app, count_call_namespace by done;
      unfold count_hook; simpl; lia.
  - unfold generate_test_description. rewrite exec_call. simpl. unfold harness_answer.
    destruct (generate_test_description_with_nsys_impl hn launch_setup (harness_state w)).
    simpl. rewrite count_call_app. unfold count_hook, count_call. simpl.
    by destruct c.
  - simpl. unfold count_hook. simpl. lia.
  - unfold test_benchmark. rewrite exec_call. simpl. unfold harness_answer.
    destruct (run_benchmark_impl hn (harness_state w)).
    simpl. rewrite count_call_app. unfold count_hook, count_call. simpl.
    by destruct c.
Qed.

(** X8: the harness is asked to run the benchmark once per run of
    [test_benchmark], and for a test description once per run of
    [generate_test_description], whatever else runs in between and whether
    or not calls fail: [launch_setup] and the class body make neither
    call. *)
Theorem hook_calls_counted (ops : list (operation Prefix Timeout)) (w : World H) :
  count_call CallRunBenchmark (calls (perform_all hn ops w)) =
    count_call CallRunBenchmark (calls w) + count_hook CallRunBenchmark ops /\
  count_call CallGenerateTestDescriptionWithNsys (calls (perform_all hn ops w)) =
    count_call CallGenerateTestDescriptionWithNsys (calls w) +
    count_hook CallGenerateTestDescriptionWithNsys ops.
Proof.
  assert (Hall : forall c, harness_call_eqb c CallGenerateNamespace = false ->
            forall (ops : list (operation Prefix Timeout)) (w : World H),
              count_call c (calls (perform_all hn ops w)) =
              count_call c (calls w) + count_hook c ops).
  { intros c Hc ops0. induction ops0 as [| op ops' IH]; intros w0; simpl.
    - unfold count_hook. simpl. lia.
    - rewrite IH, (perform_count c op w0 Hc).
      unfold count_hook. simpl.
      destruct (match hook_call_of op with
                | Some c' => harness_call_eqb c c'
                | None => false
                end); simpl; lia. }
  split; by apply Hall.
Qed.
End LaunchSetupExtras.

(** * Beyond the claims: invariants of the tables *)


(** X6: the node under test hears replayed data only.  PlaybackNode
    records nothing but topics of the live sources (DataLoaderNode and
    VisualSlamNode) and plays back on other names; no live source is tied
    to a played-back topic, [/tf] included; every topic NvbloxNode is
    remapped to is a played-back one. *)
Theorem replayed_data_only (ns : string) :
  exists dl vs pb nv,
    node_named "DataLoaderNode" (fixed_descriptors ns) = Some dl /\
    node_named "VisualSlamNode" (fixed_descriptors ns) = Some vs /\
    node_named "PlaybackNode" (fixed_descriptors ns) = Some pb /\
    node_named "NvbloxNode" (fixed_descriptors ns) = Some nv /\
    subsetb (recorded_topics pb) (bus_topics dl ++ bus_topics vs) = true /\
    disjointb (recorded_topics pb) (played_topics pb) = true /\
    disjointb (bus_topics dl ++ bus_topics vs) (played_topics pb) = true /\
    existsb (String.eqb "/tf") (played_topics pb) = true /\
    subsetb (bus_topics nv) (played_topics pb) = true.
Proof.
  exists (data_loader_node ns), (visual_slam_node ns), (playback_node ns), (nvblox_node ns).
  repeat split.
Qed.

(** X7: names are unambiguous.  The six node names differ; within every
    descriptor no logical name is remapped twice, no topic is the target of
    two remappings, and no parameter key is given twice. *)
Theorem names_unambiguous (ns : string) :
  distinctb (List.map ComposableNode.name (fixed_descriptors ns)) = true /\
  forallb
    (fun d => distinctb (List.map fst (ComposableNode.remappings d)) &&
              distinctb (bus_topics d) &&
              distinctb (parameter_keys d))
    (fixed_descriptors ns) = true.
Proof. split; reflexivity. Qed.

(** * Beyond the claims: sequences of operations *)

Section Sequences.
Context {Prefix Timeout LaunchDescription H : Type}.
Context (hn : Harness Prefix Timeout LaunchDescription H).

Lemma perform_size (op : operation Prefix Timeout) (w : World H) :
  namespace_total hn ->
  size (heap (perform hn w op)) = size (heap w) + 6 * count_launches [op].
Proof.
  intros Htot. destruct op as [p t | | |]; unfold perform.
  - destruct (launch_setup_objects hn p t w Htot)
      as (c & w' & ds & -> & Hlen & Hlook & Hnd & Hfree & Hdom & _).
    simpl. rewrite <- !size_dom, Hdom, size_union.
    + rewrite size_list_to_set by exact Hnd.
      rewrite (Forall2_length _ _ _ Hlook), Hlen. unfold count_launches. simpl. lia.
    + intros l Hl1 Hl2. rewrite elem_of_list_to_set in Hl2.
      rewrite Forall_forall in Hfree. by apply (Hfree l Hl2).
  - unfold generate_test_description. rewrite exec_call, hook_handler_heap by done.
    unfold count_launches. simpl. lia.
  - unfold count_launches. simpl. lia.
  - unfold test_benchmark. rewrite exec_call, hook_handler_heap by done.
    unfold count_launches. simpl. lia.
Qed.

(** X9: only [launch_setup] creates descriptors, six per run.  After any
    sequence of operations, with a harness that answers the namespace
    calls, the heap holds six descriptors more for every [launch_setup]
    in the sequence; the hooks and the class body add none. *)
Theorem descriptors_created_by_launches
    (ops : list (operation Prefix Timeout)) (w : World H) :
  namespace_total hn ->
  size (heap (perform_all hn ops w)) = size (heap w) + 6 * count_launches ops.
Proof.
  intros Htot. revert w.
  induction ops as [| op ops IH]; intros w; simpl.
  - unfold count_launches. simpl. lia.
  - rewrite IH, (perform_size op w Htot).
    unfold count_launches. simpl.
    destruct op; simpl; lia.
Qed.
End Sequences.

(** * The extras at a harness that answers [/r2b] *)

Lemma launch_setup_six_new_objects_witness :
  namespace_total (static_harness "/r2b") /\
  (exists c w',
      exec (launch_handler (static_harness "/r2b")) (launch_setup "" 0%Z) empty_world =
        (Returned [c], w') /\
      length (ComposableNodeContainer.composable_node_descriptions c) = 6 /\
      NoDup (ComposableNodeContainer.composable_node_descriptions c) /\
      Forall (fun l => heap empty_world !! l = None)
        (ComposableNodeContainer.composable_node_descriptions c) /\
      Forall (fun l => is_Some (heap w' !! l))
        (ComposableNodeContainer.composable_node_descriptions c) /\
      dom (heap w') =
        dom (heap empty_world) ∪
        list_to_set (ComposableNodeContainer.composable_node_descriptions c) /\
      (forall l, l ∉ ComposableNodeContainer.composable_node_descriptions c ->
                 heap w' !! l = heap empty_world !! l)).
Proof.
  assert (Htot : namespace_total (static_harness "/r2b")).
  { intros h. exists "/r2b", h. reflexivity. }
  split; [exact Htot |].
  apply (launch_setup_six_new_objects (static_harness "/r2b") "" 0%Z empty_world Htot).
Defined.

Lemma launches_share_no_descriptor_witness :
  namespace_total (static_harness "/r2b") /\
  (exists c1 w1 c2 w2,
      exec (launch_handler (static_harness "/r2b")) (launch_setup "" 0%Z) empty_world =
        (Returned [c1], w1) /\
      exec (launch_handler (static_harness "/r2b")) (launch_setup "nsys" 5%Z) w1 =
        (Returned [c2], w2) /\
      NoDup (ComposableNodeContainer.composable_node_descriptions c1 ++
             ComposableNodeContainer.composable_node_descriptions c2) /\
      graph_of w2 c1 = graph_of w1 c1 /\
      length (graph_of w2 c1) = 6 /\
      length (graph_of w2 c2) = 6).
Proof.
  assert (Htot : namespace_total (static_harness "/r2b")).
  { intros h. exists "/r2b", h. reflexivity. }
  split; [exact Htot |].
  apply (launches_share_no_descriptor (static_harness "/r2b")
           "" "nsys" 0%Z 5%Z empty_world Htot).
Defined.

Lemma descriptors_created_by_launches_witness :
  namespace_total (static_harness "/r2b") /\
  size (heap (perform_all (static_harness "/r2b")
                [ OpClassBody; OpGenerateTestDescription; OpLaunchSetup "" 0%Z;
                  OpTestBenchmark ] empty_world)) =
    size (heap empty_world) +
    6 * count_launches
          [ OpClassBody; OpGenerateTestDescription; OpLaunchSetup "" 0%Z;
            OpTestBenchmark ].
Proof.
  assert (Htot : namespace_total (static_harness "/r2b")).
  { intros h. exists "/r2b", h. reflexivity. }
  split; [exact Htot |].
  apply (descriptors_created_by_launches (static_harness "/r2b")
           [ OpClassBody; OpGenerateTestDescription; OpLaunchSetup "" 0%Z;
             OpTestBenchmark ] empty_world Htot).
Defined.
